(** * PokeAlarm.LocationServices.GMaps: a shallow embedding

    The Python class [GMaps] is a rate-limited, caching client of the Google
    Maps web services.  This development embeds the class in Gallina by
    explicit state passing: every method takes the object ([self]) and a
    description of what the outside world does during the call (clock
    readings, the answer of the HTTP transport, the random draw) and returns
    the Python outcome (a returned value or a raised exception) together
    with the object after the call.

    Conventions.
    - Values decoded from a JSON body are kept dynamically typed ([json]),
      because the code probes them with [get], [len], [in] and subscripts and
      relies on the exceptions these raise on values of the wrong shape.
    - Python floats are represented by the rational they denote, and float
      arithmetic is exact; [time.time()] readings are rationals in seconds.
    - Exceptions are a closed enumeration of the classes the code can meet.
    - Calls are sequential: the [synchronize_with] lock is not modelled. *)

From Stdlib Require Import String Ascii List ZArith QArith Qround Bool Lia Lqa.
From Stdlib Require Import DecimalString.
Import ListNotations.
Set Warnings "-register-all".
Local Close Scope Q_scope.
Local Open Scope list_scope.
Local Open Scope string_scope.

(** ** Python outcomes *)

Inductive exn : Type :=
| HTTPError (status_code : Z)      (* requests.exceptions.HTTPError *)
| Timeout                          (* requests.exceptions.Timeout *)
| ConnectionError                  (* any other requests transport failure *)
| JSONDecodeError                  (* response body is not JSON *)
| UserWarning (msg : string)
| ValueError (msg : string)
| KeyError
| IndexError
| TypeError
| AttributeError.

Inductive result (A : Type) : Type :=
| Return (a : A)
| Raise (e : exn).
Arguments Return {A} a.
Arguments Raise {A} e.

Definition bind {A B} (r : result A) (k : A -> result B) : result B :=
  match r with
  | Return a => k a
  | Raise e => Raise e
  end.

Notation "x <- r ;; k" := (bind r (fun x => k))
  (at level 61, r at next level, right associativity).

Definition returns {A} (r : result A) : bool :=
  match r with Return _ => true | Raise _ => false end.

(** ** JSON values as Python objects *)

(** What [json.loads] yields: [None], a bool, a number, a [str], a [list],
    or a [dict] with string keys.  The members of an object are listed once
    per key, as in the decoded dict. *)
Inductive json : Type :=
| JNull
| JBool (b : bool)
| JNum (q : Q)
| JStr (s : string)
| JArr (items : list json)
| JObj (fields : list (string * json)).

Definition dict (V : Type) : Type := list (string * V).

Fixpoint dict_get {V} (d : dict V) (k : string) : option V :=
  match d with
  | [] => None
  | (k', v) :: d' => if String.eqb k' k then Some v else dict_get d' k
  end.

(** [d[k] = v]: the value of an existing key is replaced in place, a new key
    is added at the end. *)
Fixpoint dict_set {V} (d : dict V) (k : string) (v : V) : dict V :=
  match d with
  | [] => [(k, v)]
  | (k', v') :: d' =>
      if String.eqb k' k then (k, v) :: d' else (k', v') :: dict_set d' k v
  end.

Definition dict_mem {V} (d : dict V) (k : string) : bool :=
  match dict_get d k with Some _ => true | None => false end.

(** [d.get(k, default)] on a dict. *)
Definition dict_get_default {V} (d : dict V) (k : string) (default : V) : V :=
  match dict_get d k with Some v => v | None => default end.

(** The characters of a string, each as a one-character string (iterating a
    Python [str]). *)
Fixpoint chars (s : string) : list json :=
  match s with
  | EmptyString => []
  | String c s' => JStr (String c EmptyString) :: chars s'
  end.

Fixpoint is_prefix (p s : string) : bool :=
  match p, s with
  | EmptyString, _ => true
  | String a p', String b s' => Ascii.eqb a b && is_prefix p' s'
  | String _ _, EmptyString => false
  end.

(** [p in s] for two Python strings. *)
Fixpoint is_substring (p s : string) : bool :=
  is_prefix p s ||
  match s with
  | EmptyString => false
  | String _ s' => is_substring p s'
  end.

(** [v == s] for a decoded value and a string literal. *)
Definition eq_str (v : json) (s : string) : bool :=
  match v with
  | JStr x => String.eqb x s
  | _ => false
  end.

(** [obj.get(k, default)]: only dicts have the method. *)
Definition py_get (obj : json) (k : string) (default : json) : result json :=
  match obj with
  | JObj d => Return (dict_get_default d k default)
  | _ => Raise AttributeError
  end.

(** [len(obj)]. *)
Definition py_len (obj : json) : result nat :=
  match obj with
  | JArr l => Return (List.length l)
  | JStr s => Return (String.length s)
  | JObj d => Return (List.length d)
  | _ => Raise TypeError
  end.

(** [obj[0]]. *)
Definition py_item0 (obj : json) : result json :=
  match obj with
  | JArr (x :: _) => Return x
  | JArr [] => Raise IndexError
  | JStr (String c _) => Return (JStr (String c EmptyString))
  | JStr EmptyString => Raise IndexError
  | JObj _ => Raise KeyError
  | _ => Raise TypeError
  end.

(** [obj[k]] for a string key [k]. *)
Definition py_getitem (obj : json) (k : string) : result json :=
  match obj with
  | JObj d =>
      match dict_get d k with
      | Some v => Return v
      | None => Raise KeyError
      end
  | _ => Raise TypeError
  end.

(** [k in obj] for a string key [k]. *)
Definition py_contains (obj : json) (k : string) : result bool :=
  match obj with
  | JObj d => Return (dict_mem d k)
  | JArr l => Return (existsb (fun v => eq_str v k) l)
  | JStr s => Return (is_substring k s)
  | _ => Raise TypeError
  end.

(** [for x in obj]: the elements visited. *)
Definition py_iter (obj : json) : result (list json) :=
  match obj with
  | JArr l => Return l
  | JStr s => Return (chars s)
  | JObj d => Return (map (fun kv => JStr (fst kv)) d)
  | _ => Raise TypeError
  end.

(** [response[0] if len(response) > 0 else {}]. *)
Definition first_or_empty (response : json) : result json :=
  n <- py_len response ;;
  if (0 <? n)%nat then py_item0 response else Return (JObj []).

(** ** Numbers, dates and formatting (Python runtime) *)

Definition Qltb (x y : Q) : bool := negb (Qle_bool y x).

(** [round(x)] with one argument: nearest integer, ties to the even one. *)
Definition py_round (x : Q) : Z :=
  let f := Qfloor x in
  match Qcompare (x - inject_Z f) (1 # 2) with
  | Lt => f
  | Gt => (f + 1)%Z
  | Eq => if Z.even f then f else (f + 1)%Z
  end.

Definition digits (n : Z) : string :=
  NilZero.string_of_uint (N.to_uint (Z.to_N n)).

(** The format [{x:.5f}]: sign, integer part, and exactly five decimals of
    the correctly rounded value. *)
Definition fmt5f (x : Q) : string :=
  let n := Z.abs (py_round (x * 100000)%Q) in
  (if (Qnum x <? 0)%Z then "-" else EmptyString) ++
  digits (n / 100000) ++ "." ++
  substring 1 5 (digits (100000 + n mod 100000)).

(** [f"{p[0]:.5f},{p[1]:.5f}"] *)
Definition fmt_latlng (p : Q * Q) : string :=
  fmt5f (fst p) ++ "," ++ fmt5f (snd p).

Definition lower_ascii (c : ascii) : ascii :=
  let n := nat_of_ascii c in
  if ((65 <=? n) && (n <=? 90))%nat then ascii_of_nat (n + 32) else c.

(** [s.lower()], on the ASCII letters. *)
Fixpoint lower (s : string) : string :=
  match s with
  | EmptyString => EmptyString
  | String c s' => String (lower_ascii c) (lower s')
  end.

(** A [datetime] is a point of the proleptic Gregorian time line: the day
    number of [date.toordinal()] and the microseconds elapsed in that day.
    Its calendar fields are computed from the day number as [datetime.py]
    does; the range limit of the type (years 1 to 9999) is not modelled. *)
Record datetime : Type := {
  toordinal : Z;
  day_micros : Z
}.

Definition _DAYS_IN_MONTH (month : Z) : Z :=
  match month with
  | 1 => 31 | 2 => 28 | 3 => 31 | 4 => 30 | 5 => 31 | 6 => 30
  | 7 => 31 | 8 => 31 | 9 => 30 | 10 => 31 | 11 => 30 | 12 => 31
  | _ => 0
  end%Z.

Definition _DAYS_BEFORE_MONTH (month : Z) : Z :=
  match month with
  | 1 => 0 | 2 => 31 | 3 => 59 | 4 => 90 | 5 => 120 | 6 => 151
  | 7 => 181 | 8 => 212 | 9 => 243 | 10 => 273 | 11 => 304 | 12 => 334
  | _ => 0
  end%Z.

(** [datetime._ord2ymd]: day number to (year, month, day). *)
Definition _ord2ymd (n : Z) : Z * Z * Z :=
  (let n := n - 1 in
   let n400 := n / 146097 in
   let n := n mod 146097 in
   let year := n400 * 400 + 1 in
   let n100 := n / 36524 in
   let n := n mod 36524 in
   let n4 := n / 1461 in
   let n := n mod 1461 in
   let n1 := n / 365 in
   let n := n mod 365 in
   let year := year + n100 * 100 + n4 * 4 + n1 in
   if (n1 =? 4) || (n100 =? 4) then (year - 1, 12, 31)
   else
     let leapyear := (n1 =? 3) && (negb (n4 =? 24) || (n100 =? 3)) in
     let month := Z.shiftr (n + 50) 5 in
     let preceding :=
       _DAYS_BEFORE_MONTH month + (if (2 <? month) && leapyear then 1 else 0) in
     if n <? preceding then
       let month := month - 1 in
       let preceding :=
         preceding -
         (_DAYS_IN_MONTH month + (if (month =? 2) && leapyear then 1 else 0)) in
       (year, month, n - preceding + 1)
     else (year, month, n - preceding + 1))%Z.

Definition year (d : datetime) : Z := fst (fst (_ord2ymd (toordinal d))).
Definition month (d : datetime) : Z := snd (fst (_ord2ymd (toordinal d))).

(** [now + timedelta(days=n)] *)
Definition add_days (d : datetime) (n : Z) : datetime :=
  {| toordinal := toordinal d + n; day_micros := day_micros d |}.

(** [calendar.isleap] *)
Definition isleap (y : Z) : bool :=
  ((y mod 4 =? 0) && (negb (y mod 100 =? 0) || (y mod 400 =? 0)))%Z.

(** [calendar.monthrange(year, month)[1]]: the number of days of the month;
    [IllegalMonthError] is a [ValueError]. *)
Definition monthrange_days (y m : Z) : result Z :=
  if ((1 <=? m) && (m <=? 12))%Z
  then Return (_DAYS_IN_MONTH m + (if (m =? 2)%Z && isleap y then 1 else 0))%Z
  else Raise (ValueError "bad month number").

(** ** The collaborators of the class *)

(** Modelled from the spec: the [Unknown] placeholder enumeration imported
    from the [PokeAlarm] package, whose definition is not in the sources at
    hand.  It names one placeholder string per severity tier. *)
Record UnknownT : Type := {
  EMPTY : string;
  SMALL : string;
  REGULAR : string
}.

(** Modelled from the spec: the cache collaborator passed to the constructor,
    whose class is not in the sources at hand.  Each of its two methods reads
    ([get(key) -> value | absent]) when given a key, and writes
    ([put(key, value, expiresAt)]) when given a key, a value and an
    expiration.  Entries are kept newest first; every write adds an entry. *)
Record Cache : Type := {
  geocode_entries : dict ((Q * Q) * datetime);
  reverse_geocode_entries : dict (dict json * datetime)
}.

Definition cache_geocode (c : Cache) (address : string) : option (Q * Q) :=
  option_map fst (dict_get (geocode_entries c) address).

Definition cache_geocode_put (c : Cache) (address : string) (latlng : Q * Q)
    (expires : datetime) : Cache :=
  {| geocode_entries := (address, (latlng, expires)) :: geocode_entries c;
     reverse_geocode_entries := reverse_geocode_entries c |}.

Definition cache_reverse_geocode (c : Cache) (latlng : string)
    : option (dict json) :=
  option_map fst (dict_get (reverse_geocode_entries c) latlng).

Definition cache_reverse_geocode_put (c : Cache) (latlng : string)
    (dts : dict json) (expires : datetime) : Cache :=
  {| geocode_entries := geocode_entries c;
     reverse_geocode_entries :=
       (latlng, (dts, expires)) :: reverse_geocode_entries c |}.

(** The HTTP transport ([requests.Session.get]): what is sent and what comes
    back.  The retry policy of the session lives inside the transport. *)
Record request : Type := {
  url : string;
  params : dict string;
  timeout : Z
}.

Record response : Type := {
  status_code : Z;
  body : option json       (* [None]: the body is not valid JSON *)
}.

Inductive transport_outcome : Type :=
| Responded (r : response)
| Failed (e : exn).

(** [Response.raise_for_status()] and [Response.ok] of [requests]. *)
Definition raise_for_status (r : response) : result unit :=
  if ((400 <=? status_code r) && (status_code r <? 600))%Z
  then Raise (HTTPError (status_code r))
  else Return tt.

Definition ok (r : response) : bool := returns (raise_for_status r).

(** [Response.json()] *)
Definition response_json (r : response) : result json :=
  match body r with
  | Some b => Return b
  | None => Raise JSONDecodeError
  end.

(** What the outside world does during one call of a public method (each
    sends at most one request and draws at most one expiration). *)
Record World : Type := {
  time_check : Q;     (* the clock, in seconds, when the call reaches the
                         rate-limit test *)
  delay : Q;          (* seconds that pass, beyond the sleep asked for, until
                         the reading that is appended to the window *)
  session_get : request -> transport_outcome;
  utcnow : datetime;
  random : Q
}.

(** ** The class *)

Definition TRAVEL_MODES : list string :=
  ["walking"; "biking"; "driving"; "transit"].

Definition _queries_per_second : nat := 50.

Record GMaps : Type := {
  _key : string;
  _max_fuzz_days : Z;
  _cache : Cache;
  _window : list Q;              (* deque(maxlen=_queries_per_second) *)
  _dm_hist : dict (dict json);
  sent : list request            (* trace: the requests handed to the
                                    session so far, oldest first *)
}.

Definition __init__ (api_key : string) (cache_fuzz_days : Z) (cache : Cache)
    : GMaps :=
  {| _key := api_key;
     _max_fuzz_days := cache_fuzz_days;
     _cache := cache;
     _window := [];
     _dm_hist := map (fun key => (key, [])) TRAVEL_MODES;
     sent := [] |}.

Definition with_cache (self : GMaps) (c : Cache) : GMaps :=
  {| _key := _key self;
     _max_fuzz_days := _max_fuzz_days self;
     _cache := c;
     _window := _window self;
     _dm_hist := _dm_hist self;
     sent := sent self |}.

(** [deque.append] on a deque of bounded length: add on the right, then drop
    from the left what exceeds [maxlen]. *)
Definition deque_append (maxlen : nat) (d : list Q) (x : Q) : list Q :=
  let d' := (d ++ [x])%list in
  if (maxlen <? List.length d')%nat then tl d' else d'.

Definition expiration (self : GMaps) (w : World) : result datetime :=
  let now := utcnow w in
  month_days <- monthrange_days (year now) (month now) ;;
  let fuzz_days := py_round (inject_Z (_max_fuzz_days self) * random w)%Q in
  Return (add_days now (month_days + fuzz_days)).

(** The rate-limit test at the head of [_make_request]: the sleep it asks
    for, if any.  A full window is not empty, so [self._window[0]] is its
    head. *)
Definition rate_limit_sleep (self : GMaps) (w : World) : option Q :=
  if (List.length (_window self) =? _queries_per_second)%nat then
    let elapsed_time := (time_check w - hd 0 (_window self))%Q in
    if Qltb elapsed_time 1 then Some (1 - elapsed_time)%Q else None
  else None.

(** The reading of [time.time()] that is appended to the window. *)
Definition dispatch_time (self : GMaps) (w : World) : Q :=
  match rate_limit_sleep self w with
  | Some d => (time_check w + d + delay w)%Q
  | None => (time_check w + delay w)%Q
  end.

(** The request that [_make_request] hands to the session: the url of the
    service, the parameters with the API key added, a timeout of 3 s. *)
Definition build_request (self : GMaps) (service : string)
    (params : dict string) : request :=
  let url := "https://maps.googleapis.com/maps/api/" ++ service ++ "/json" in
  let params := dict_set params "key" (_key self) in
  {| url := url; params := params; timeout := 3 |}.

Section Methods.

(** The placeholders of the [Unknown] enumeration. *)
Variable Unknown : UnknownT.

(** [str(v)] for a decoded value that is not itself a string (the rendering
    of numbers, lists and dicts in f-strings). *)
Variable py_str : json -> string.

(** [float(s)] for a string: the number it spells, if any. *)
Variable float_of_string : string -> option Q.

(** [f"{v}"] *)
Definition fmt (v : json) : string :=
  match v with
  | JStr s => s
  | _ => py_str v
  end.

(** [float(v)] *)
Definition py_float (v : json) : result Q :=
  match v with
  | JNum q => Return q
  | JBool b => Return (if b then 1 else 0)%Q
  | JStr s =>
      match float_of_string s with
      | Some q => Return q
      | None => Raise (ValueError "could not convert string to float")
      end
  | _ => Raise TypeError
  end.

(** [_make_request]: the rate-limit test and sleep, the reading appended to
    the window, the request sent, and the classification of the answer.  The
    window is updated before the request is sent, whatever comes back. *)
Definition _make_request (self : GMaps) (w : World) (service : string)
    (params : dict string) : result json * GMaps :=
  let stamp := dispatch_time self w in
  let req := build_request self service params in
  let self' :=
    {| _key := _key self;
       _max_fuzz_days := _max_fuzz_days self;
       _cache := _cache self;
       _window := deque_append _queries_per_second (_window self) stamp;
       _dm_hist := _dm_hist self;
       sent := (sent self ++ [req])%list |} in
  let outcome :=
    match session_get w req with
    | Failed e => Raise e
    | Responded r =>
        _ <- (if negb (ok r)
              then (_ <- response_json r ;; raise_for_status r)
              else Return tt) ;;
        body <- response_json r ;;
        status <- py_getitem body "status" ;;
        if eq_str status "OK" || eq_str status "ZERO_RESULTS" then Return body
        else if eq_str status "OVER_QUERY_LIMIT"
        then Raise (UserWarning "API Quota exceeded.")
        else Raise (ValueError ("Unexpected response status:" ++
                                String "010" " " ++ py_str body))
    end in
  (outcome, self').

(** [e.message]: exceptions of Python 3 (the language of the module, which
    uses f-strings) carry no such attribute, so reading it raises. *)
Definition message (e : exn) : result string := Raise AttributeError.

(** The four [except] clauses that close the [try] block of each public
    method, in order.  The exceptions of the model all derive from
    [Exception]; the clauses only log. *)
Definition except_clauses (e : exn) : result unit :=
  match e with
  | HTTPError _ => _ <- message e ;; Return tt
  | Timeout => _ <- message e ;; Return tt
  | UserWarning _ => Return tt
  | _ => Return tt
  end.

(** The extraction of [geocode], up to the assignment of [latlng]. *)
Definition extract_latlng (response : json) : result (option (Q * Q)) :=
  response <- py_get response "results" (JArr []) ;;
  response <- first_or_empty response ;;
  response <- py_get response "geometry" (JObj []) ;;
  response <- py_get response "location" (JObj []) ;;
  has_lat <- py_contains response "lat" ;;
  has_lng <- (if has_lat then py_contains response "lng" else Return false) ;;
  if has_lat && has_lng then
    lat <- (v <- py_getitem response "lat" ;; py_float v) ;;
    lng <- (v <- py_getitem response "lng" ;; py_float v) ;;
    Return (Some (lat, lng))
  else Return None.

Definition geocode (self : GMaps) (w : World) (address language : string)
    : result (option (Q * Q)) * GMaps :=
  let address := lower address in
  match cache_geocode (_cache self) address with
  | Some latlng => (Return (Some latlng), self)
  | None =>
      let params := [("address", address); ("language", language)] in
      let '(response, self) := _make_request self w "geocode" params in
      match (response <- response ;; extract_latlng response) with
      | Raise e => (_ <- except_clauses e ;; Return None, self)
      | Return None => (Return None, self)
      | Return (Some latlng) =>
          match expiration self w with
          | Raise e => (_ <- except_clauses e ;; Return (Some latlng), self)
          | Return expires =>
              (Return (Some latlng),
               with_cache self
                 (cache_geocode_put (_cache self) address latlng expires))
          end
      end
  end.

Definition _reverse_geocode_defaults : dict json :=
  [("street_num", JStr (SMALL Unknown));
   ("street", JStr (REGULAR Unknown));
   ("address", JStr (REGULAR Unknown));
   ("address_eu", JStr (REGULAR Unknown));
   ("postal", JStr (REGULAR Unknown));
   ("neighborhood", JStr (REGULAR Unknown));
   ("sublocality", JStr (REGULAR Unknown));
   ("city", JStr (REGULAR Unknown));
   ("county", JStr (REGULAR Unknown));
   ("state", JStr (REGULAR Unknown));
   ("country", JStr (REGULAR Unknown))].

Fixpoint foldM {A B} (f : A -> B -> result A) (a : A) (l : list B)
    : result A :=
  match l with
  | [] => Return a
  | x :: l' => a' <- f a x ;; foldM f a' l'
  end.

(** [details[category] = item["short_name"]].  A category that is a list or
    a dict is unhashable; one that is hashable but not a string lands under
    a key that no later lookup (all by string) can reach, and is left out. *)
Definition store_category (item : json) (details : dict json)
    (category : json) : result (dict json) :=
  short_name <- py_getitem item "short_name" ;;
  match category with
  | JStr c => Return (dict_set details c short_name)
  | JArr _ | JObj _ => Raise TypeError
  | _ => Return details
  end.

Definition store_item (details : dict json) (item : json)
    : result (dict json) :=
  types <- py_getitem item "types" ;;
  categories <- py_iter types ;;
  foldM (store_category item) details categories.

(** The extraction of [reverse_geocode]: the first result and the two nested
    loops over its [address_components]. *)
Definition collect_details (response : json) : result (dict json) :=
  response <- py_get response "results" (JArr []) ;;
  response <- first_or_empty response ;;
  components <- py_get response "address_components" JNull ;;
  items <- py_iter components ;;
  foldM store_item [] items.

(** The assignments to [dts] that follow the loops. *)
Definition fill_dts (dts details : dict json) : dict json :=
  let get k default := dict_get_default details k default in
  let item d k := dict_get_default d k JNull in
  let empty := JStr (EMPTY Unknown) in
  let regular := JStr (REGULAR Unknown) in
  let dts := dict_set dts "street_num" (get "street_number" empty) in
  let dts := dict_set dts "street" (get "route" empty) in
  let dts := dict_set dts "address"
    (JStr (fmt (item dts "street_num") ++ " " ++ fmt (item dts "street"))) in
  let dts := dict_set dts "address_eu"
    (JStr (fmt (item dts "street") ++ " " ++ fmt (item dts "street_num"))) in
  let dts := dict_set dts "postal" (get "postal_code" regular) in
  let dts := dict_set dts "neighborhood" (get "neighborhood" regular) in
  let dts := dict_set dts "sublocality" (get "sublocality" regular) in
  let dts := dict_set dts "city"
    (get "locality" (get "postal_town" regular)) in
  let dts := dict_set dts "county"
    (get "administrative_area_level_2" regular) in
  let dts := dict_set dts "state"
    (get "administrative_area_level_1" regular) in
  dict_set dts "country" (get "country" regular).

Definition reverse_geocode (self : GMaps) (w : World) (latlng : Q * Q)
    (language : string) : result (dict json) * GMaps :=
  let latlng := fmt_latlng latlng in
  match cache_reverse_geocode (_cache self) latlng with
  | Some dts => (Return dts, self)
  | None =>
      let dts := _reverse_geocode_defaults in
      let params := [("latlng", latlng); ("language", language)] in
      let '(response, self) := _make_request self w "geocode" params in
      match (response <- response ;; collect_details response) with
      | Raise e => (_ <- except_clauses e ;; Return dts, self)
      | Return details =>
          let dts := fill_dts dts details in
          match expiration self w with
          | Raise e => (_ <- except_clauses e ;; Return dts, self)
          | Return expires =>
              (Return dts,
               with_cache self
                 (cache_reverse_geocode_put (_cache self) latlng dts expires))
          end
      end
  end.

(** [response.get(field, {}).get("text", Unknown.REGULAR)] *)
Definition text_of (response : json) (field : string) : result json :=
  inner <- py_get response field (JObj []) ;;
  py_get inner "text" (JStr (REGULAR Unknown)).

Definition distance_matrix (self : GMaps) (w : World) (mode : string)
    (origin dest : Q * Q) (lang units : string)
    : result (dict json) * GMaps :=
  if negb (existsb (String.eqb mode) TRAVEL_MODES) then
    (Raise (ValueError ("DM doesn't support mode '" ++ mode ++ "'.")), self)
  else
    let origin := fmt_latlng origin in
    let dest := fmt_latlng dest in
    let key := origin ++ ":" ++ dest in
    match dict_get (_dm_hist self) key with
    | Some memo => (Return memo, self)
    | None =>
        let dist_key := mode ++ "_distance" in
        let dur_key := mode ++ "_duration" in
        let dts :=
          dict_set (dict_set [] dist_key (JStr (REGULAR Unknown)))
                   dur_key (JStr (REGULAR Unknown)) in
        let params :=
          [("mode", mode); ("origins", origin); ("destinations", dest);
           ("language", lang); ("units", units)] in
        let '(response, self) :=
          _make_request self w "distancematrix" params in
        match (response <- response ;;
               response <- py_get response "rows" (JArr []) ;;
               response <- first_or_empty response ;;
               response <- py_get response "elements" (JArr []) ;;
               first_or_empty response) with
        | Raise e => (_ <- except_clauses e ;; Return dts, self)
        | Return response =>
            match text_of response "distance" with
            | Raise e => (_ <- except_clauses e ;; Return dts, self)
            | Return distance =>
                let dts := dict_set dts dist_key distance in
                match text_of response "duration" with
                | Raise e => (_ <- except_clauses e ;; Return dts, self)
                | Return duration =>
                    (Return (dict_set dts dur_key duration), self)
                end
            end
        end
    end.

End Methods.

(** A run of successive calls of [_make_request] on one object: the readings
    appended to the window, in order, and the object at the end. *)
Fixpoint run_requests (py_str : json -> string) (self : GMaps)
    (calls : list (World * (string * dict string))) : list Q * GMaps :=
  match calls with
  | [] => ([], self)
  | (w, (service, params)) :: calls' =>
      let stamp := dispatch_time self w in
      let self' := snd (_make_request py_str self w service params) in
      let '(stamps, final) := run_requests py_str self' calls' in
      (stamp :: stamps, final)
  end.

(** The clock behaves during a call: a sleep lasts at least as long as asked
    and no reading is earlier than a reading already in the window. *)
Definition clock_ok (self : GMaps) (w : World) : bool :=
  Qle_bool 0 (delay w) &&
  forallb (fun t => Qle_bool t (time_check w)) (_window self).

Fixpoint clock_ok_run (py_str : json -> string) (self : GMaps)
    (calls : list (World * (string * dict string))) : bool :=
  match calls with
  | [] => true
  | (w, (service, params)) :: calls' =>
      clock_ok self w &&
      clock_ok_run py_str
        (snd (_make_request py_str self w service params)) calls'
  end.

(** The readings of a list that fall in the one-second interval ending at
    [t], that is in (t - 1, t]. *)
Definition in_trailing_second (t : Q) (stamps : list Q) : list Q :=
  filter (fun x => Qltb (t - 1) x && Qle_bool x t) stamps.

(** Where a geocode body holds its coordinate, in the words of the service
    documentation: the members [lat] and [lng] of the object at
    [results[0].geometry.location]. *)
Definition member (v : json) (k : string) : option json :=
  match v with
  | JObj d => dict_get d k
  | _ => None
  end.

Definition first_element (v : json) : option json :=
  match v with
  | JArr (x :: _) => Some x
  | _ => None
  end.

Definition location_of (body : json) : option json :=
  match member body "results" with
  | Some results =>
      match first_element results with
      | Some r0 =>
          match member r0 "geometry" with
          | Some g => member g "location"
          | None => None
          end
      | None => None
      end
  | None => None
  end.

Definition has_lat_lng (body : json) : bool :=
  match location_of body with
  | Some loc =>
      match member loc "lat", member loc "lng" with
      | Some _, Some _ => true
      | _, _ => false
      end
  | None => false
  end.

(** ** Sample collaborators, for the examples *)

(** Modelled from the spec: a concrete [Unknown] enumeration.  The blank
    tier is the empty string and the standard tier reads [unknown]; the three
    tiers are pairwise distinct. *)
Definition sample_unknown : UnknownT :=
  {| EMPTY := EmptyString; SMALL := "?"; REGULAR := "unknown" |}.

Definition sample_str (v : json) : string := "<object>".

Definition sample_float (s : string) : option Q := None.

Definition empty_cache : Cache :=
  {| geocode_entries := []; reverse_geocode_entries := [] |}.

Definition fresh : GMaps := __init__ "secret" 3 empty_cache.

Definition noon : datetime :=
  {| toordinal := 739923; day_micros := 43200000000 |}.

(** A world whose transport answers every request with the given outcome. *)
Definition world_with (outcome : transport_outcome) : World :=
  {| time_check := 100;
     delay := 0;
     session_get := fun _ => outcome;
     utcnow := noon;
     random := 1 # 2 |}.

Definition answer (code : Z) (b : json) : transport_outcome :=
  Responded {| status_code := code; body := Some b |}.

Definition zero_results_body : json :=
  JObj [("status", JStr "ZERO_RESULTS"); ("results", JArr [])].

Definition over_limit_body : json :=
  JObj [("status", JStr "OVER_QUERY_LIMIT")].

Definition denied_body : json :=
  JObj [("status", JStr "REQUEST_DENIED"); ("results", JArr [])].

(** The exceptions on which the [except] clauses do nothing but log: all
    but the two whose clause reads [e.message]. *)
Definition logged_only (e : exn) : bool :=
  match e with
  | HTTPError _ | Timeout => false
  | _ => true
  end.

(** The composition rule of the two address fields of a [dts]: [address] is
    the street number, a space and the street, [address_eu] the street, a
    space and the street number. *)
Definition address_composed (py_str : json -> string) (dts : dict json)
    : Prop :=
  exists street_num street,
    dict_get dts "street_num" = Some street_num /\
    dict_get dts "street" = Some street /\
    dict_get dts "address" =
      Some (JStr (fmt py_str street_num ++ " " ++ fmt py_str street)) /\
    dict_get dts "address_eu" =
      Some (JStr (fmt py_str street ++ " " ++ fmt py_str street_num)).

(** The parameters [reverse_geocode] sends. *)
Definition reverse_params (latlng : Q * Q) (language : string) : dict string :=
  [("latlng", fmt_latlng latlng); ("language", language)].

Definition sample_point : Q * Q := ((37422 # 1000), - (122084 # 1000))%Q.

(** A body for the coordinate [sample_point], without a street number. *)
Definition amphitheatre_body : json :=
  JObj [("status", JStr "OK");
        ("results", JArr [JObj [("address_components", JArr [
           JObj [("types", JArr [JStr "route"]);
                 ("short_name", JStr "Amphitheatre Pkwy")];
           JObj [("types", JArr [JStr "locality"; JStr "political"]);
                 ("short_name", JStr "Mountain View")];
           JObj [("types", JArr [JStr "administrative_area_level_1"]);
                 ("short_name", JStr "CA")];
           JObj [("types", JArr [JStr "country"]);
                 ("short_name", JStr "US")]])]])].

(** The record that [reverse_geocode] builds from [amphitheatre_body]. *)
Definition amphitheatre_dts : dict json :=
  [("street_num", JStr EmptyString);
   ("street", JStr "Amphitheatre Pkwy");
   ("address", JStr " Amphitheatre Pkwy");
   ("address_eu", JStr "Amphitheatre Pkwy ");
   ("postal", JStr "unknown");
   ("neighborhood", JStr "unknown");
   ("sublocality", JStr "unknown");
   ("city", JStr "Mountain View");
   ("county", JStr "unknown");
   ("state", JStr "CA");
   ("country", JStr "US")].

(** The parameters [geocode] sends. *)
Definition geocode_params (address language : string) : dict string :=
  [("address", lower address); ("language", language)].

(** A geocode body that holds a coordinate. *)
Definition found_body : json :=
  JObj [("status", JStr "OK");
        ("results", JArr [JObj [("geometry", JObj [("location", JObj [
           ("lat", JNum (37422 # 1000));
           ("lng", JNum (- (122084 # 1000)))])])]])].

(** A distance-matrix body with one row of one element. *)
Definition matrix_body : json :=
  JObj [("status", JStr "OK");
        ("rows", JArr [JObj [("elements", JArr [JObj [
           ("distance", JObj [("text", JStr "5.2 km")]);
           ("duration", JObj [("text", JStr "10 mins")])]])]])].

Definition origin_point : Q * Q := (37, - (122))%Q.
Definition dest_point : Q * Q := ((371 # 10), - (1221 # 10))%Q.

(** The parameters [distance_matrix] sends. *)
Definition matrix_params (mode : string) (origin dest : Q * Q)
    (lang units : string) : dict string :=
  [("mode", mode); ("origins", fmt_latlng origin);
   ("destinations", fmt_latlng dest); ("language", lang); ("units", units)].

(** The memo key of [distance_matrix]. *)
Definition memo_key (origin dest : Q * Q) : string :=
  fmt_latlng origin ++ ":" ++ fmt_latlng dest.

Fixpoint has_colon (s : string) : bool :=
  match s with
  | EmptyString => false
  | String c s' => Ascii.eqb c ":" || has_colon s'
  end.

(** A list of readings in which every reading is at most the later ones
    and the reading [_queries_per_second] places after a reading is at least
    one second later. *)
Fixpoint spaced (stamps : list Q) : Prop :=
  match stamps with
  | [] => True
  | x :: later =>
      Forall (Qle x) later /\
      (forall y, nth_error later (pred _queries_per_second) = Some y ->
                 (x + 1 <= y)%Q) /\
      spaced later
  end.

(** A burst of 51 calls that reach the rate-limit test 10 ms apart. *)
Definition burst : list (World * (string * dict string)) :=
  map (fun i =>
         ({| time_check := Z.of_nat i # 100;
             delay := 0;
             session_get := fun _ => answer 200 zero_results_body;
             utcnow := noon;
             random := 0 |},
          ("geocode", [("address", "main st")])))
      (seq 0 51).

(** ** Further vocabulary for the properties *)

(** The keys of a dict, in order. *)
Definition keys {V} (d : dict V) : list string := map fst d.

(** The [n] most recent elements of a list that grows on the right. *)
Definition recent {A} (n : nat) (l : list A) : list A :=
  skipn (List.length l - n) l.

(** The transport outcomes after which [_make_request] raises nothing but
    exceptions that the handlers log: a failure of a logged class, a response
    with a successful HTTP status, or a response whose body is not JSON. *)
Definition absorbed (outcome : transport_outcome) : bool :=
  match outcome with
  | Failed e => logged_only e
  | Responded r =>
      ok r || match body r with Some _ => false | None => true end
  end.

(** The extraction of [distance_matrix], up to [rows[0].elements[0]]. *)
Definition extract_element (response : json) : result json :=
  response <- py_get response "rows" (JArr []) ;;
  response <- first_or_empty response ;;
  response <- py_get response "elements" (JArr []) ;;
  first_or_empty response.

(** The default estimate of [distance_matrix] for a mode. *)
Definition default_estimate (Unknown : UnknownT) (mode : string) : dict json :=
  [(mode ++ "_distance", JStr (REGULAR Unknown));
   (mode ++ "_duration", JStr (REGULAR Unknown))].

(** Where a distance-matrix body holds its element, in the words of the
    service documentation: [rows[0].elements[0]]. *)
Definition element_of (body : json) : option json :=
  match member body "rows" with
  | Some rows =>
      match first_element rows with
      | Some row =>
          match member row "elements" with
          | Some elements => first_element elements
          | None => None
          end
      | None => None
      end
  | None => None
  end.

(** The member [text] of the object under [field] of an element. *)
Definition text_at (element : json) (field : string) : option json :=
  match member element field with
  | Some inner => member inner "text"
  | None => None
  end.

(** Whether an address component lists the category [c] among its types. *)
Definition mentions (item : json) (c : string) : bool :=
  match (types <- py_getitem item "types" ;; py_iter types) with
  | Return categories => existsb (fun x => eq_str x c) categories
  | Raise _ => false
  end.

(** The eleven keys of a [dts]. *)
Definition dts_keys : list string :=
  ["street_num"; "street"; "address"; "address_eu"; "postal";
   "neighborhood"; "sublocality"; "city"; "county"; "state"; "country"].

(** A response that is not JSON, and a distance-matrix body whose duration
    is malformed. *)
Definition not_json (code : Z) : transport_outcome :=
  Responded {| status_code := code; body := None |}.

Definition partial_matrix_body : json :=
  JObj [("status", JStr "OK");
        ("rows", JArr [JObj [("elements", JArr [JObj [
           ("distance", JObj [("text", JStr "5.2 km")]);
           ("duration", JStr "10 mins")]])]])].

(** Two components that both carry the category [political]. *)
Definition two_components : list json :=
  [JObj [("types", JArr [JStr "locality"; JStr "political"]);
         ("short_name", JStr "Mountain View")];
   JObj [("types", JArr [JStr "country"; JStr "political"]);
         ("short_name", JStr "US")]].

(** The object after the first fifty calls of [burst], and the world of the
    fifty-first. *)
Definition after_fifty : GMaps :=
  snd (run_requests sample_str fresh (firstn 50 burst)).

Definition fifty_first : World :=
  {| time_check := 50 # 100;
     delay := 0;
     session_get := fun _ => answer 200 zero_results_body;
     utcnow := noon;
     random := 0 |}.

(** * Properties *)

(** ** The runtime functions on known values *)

Example fmt5f_values :
  fmt5f (37422 # 1000) = "37.42200" /\
  fmt5f (- (122084 # 1000)) = "-122.08400" /\
  fmt5f (- (1 # 1000000)) = "-0.00000" /\
  fmt5f (123456789 # 1000000) = "123.45679".
Proof. repeat split; reflexivity. Qed.

Example py_round_values :
  (py_round (5 # 2), py_round (7 # 2), py_round (- (5 # 2)),
   py_round (26 # 10)) = (2, 4, -2, 3)%Z.
Proof. reflexivity. Qed.

Example ord2ymd_values :
  _ord2ymd 739923 = (2026, 11, 3)%Z /\
  _ord2ymd 738945 = (2024, 2, 29)%Z /\
  _ord2ymd 730485 = (2000, 12, 31)%Z /\
  _ord2ymd 693655 = (1900, 3, 1)%Z /\
  _ord2ymd 1 = (1, 1, 1)%Z.
Proof. repeat split; reflexivity. Qed.

Example monthrange_values :
  monthrange_days 2024 2 = Return 29%Z /\
  monthrange_days 1900 2 = Return 28%Z /\
  monthrange_days 2026 11 = Return 30%Z.
Proof. repeat split; reflexivity. Qed.

Example lower_value : lower "Main St" = "main st".
Proof. reflexivity. Qed.

(** The scenario of the unnamed-road address: no street number in the
    response, so [street_num] is blank and [address] starts with a space. *)
Example reverse_geocode_amphitheatre :
  fst (reverse_geocode sample_unknown sample_str fresh
         (world_with (answer 200 amphitheatre_body)) sample_point "en") =
    Return amphitheatre_dts.
Proof. reflexivity. Qed.

(** A quota failure makes [geocode] return [None]. *)
Example geocode_over_query_limit :
  fst (geocode sample_str sample_float fresh
         (world_with (answer 200 over_limit_body)) "Main St" "en") =
    Return None.
Proof. reflexivity. Qed.

(** ** Shared facts *)

Lemma eq_str_true (v : json) (s : string) : eq_str v s = true <-> v = JStr s.
Proof.
  destruct v; simpl; split; intro H; try discriminate.
  - apply String.eqb_eq in H. now subst.
  - injection H as ->. apply String.eqb_refl.
Qed.

Lemma eq_str_false (v : json) (s : string) : eq_str v s = false <-> v <> JStr s.
Proof.
  rewrite <- eq_str_true. destruct (eq_str v s); split; intro H;
    try reflexivity; try discriminate; try (intros ?; discriminate).
  now elim H.
Qed.

Lemma except_clauses_logged_only (e : exn) :
  logged_only e = true -> except_clauses e = Return tt.
Proof. destruct e; simpl; intros H; try reflexivity; discriminate. Qed.

Lemma except_clauses_not_logged_only (e : exn) :
  logged_only e = false -> except_clauses e = Raise AttributeError.
Proof. destruct e; simpl; intros H; try reflexivity; discriminate. Qed.

(** ** The request executor *)

Section RequestExecutor.

Variable py_str : json -> string.

(** What [_make_request] returns when the transport delivers a response. *)
Lemma make_request_responded self w service params r :
  session_get w (build_request self service params) = Responded r ->
  fst (_make_request py_str self w service params) =
    (_ <- (if negb (ok r)
           then (_ <- response_json r ;; raise_for_status r)
           else Return tt) ;;
     b <- response_json r ;;
     status <- py_getitem b "status" ;;
     if eq_str status "OK" || eq_str status "ZERO_RESULTS" then Return b
     else if eq_str status "OVER_QUERY_LIMIT"
     then Raise (UserWarning "API Quota exceeded.")
     else Raise (ValueError ("Unexpected response status:" ++
                             String "010" " " ++ py_str b))).
Proof. intros H. unfold _make_request. simpl. now rewrite H. Qed.

(** The object after [_make_request]: only the window and the trace move. *)
Lemma make_request_frame self w service params :
  let self' := snd (_make_request py_str self w service params) in
  _cache self' = _cache self /\
  _dm_hist self' = _dm_hist self /\
  _key self' = _key self /\
  _max_fuzz_days self' = _max_fuzz_days self /\
  sent self' = (sent self ++ [build_request self service params])%list /\
  _window self' =
    deque_append _queries_per_second (_window self) (dispatch_time self w).
Proof. simpl. repeat split. Qed.

(** With a successful HTTP status, [_make_request] raises nothing that the
    [except] clauses turn into a second exception. *)
Lemma make_request_ok_raises_logged_only self w service params r e :
  session_get w (build_request self service params) = Responded r ->
  ok r = true ->
  fst (_make_request py_str self w service params) = Raise e ->
  logged_only e = true.
Proof.
  intros Hget Hok. rewrite (make_request_responded _ _ _ _ _ Hget), Hok.
  simpl. unfold response_json. destruct (body r) as [b|]; simpl.
  - destruct (py_getitem b "status") as [status|e'] eqn:Hs; simpl.
    + destruct (eq_str status "OK" || eq_str status "ZERO_RESULTS");
        [discriminate|].
      destruct (eq_str status "OVER_QUERY_LIMIT"); intros [= <-]; reflexivity.
    + intros [= <-]. unfold py_getitem in Hs.
      destruct b; try (injection Hs as <-; reflexivity).
      destruct (dict_get fields "status"); [discriminate|].
      injection Hs as <-; reflexivity.
  - intros [= <-]; reflexivity.
Qed.

(** An HTTP error status with a JSON body makes [_make_request] raise
    [HTTPError]. *)
Lemma make_request_http_error self w service params r b :
  session_get w (build_request self service params) = Responded r ->
  ok r = false ->
  body r = Some b ->
  fst (_make_request py_str self w service params) =
    Raise (HTTPError (status_code r)).
Proof.
  intros Hget Hok Hbody. rewrite (make_request_responded _ _ _ _ _ Hget), Hok.
  unfold response_json. rewrite Hbody. simpl.
  unfold ok, raise_for_status in *.
  destruct (_ && _); [reflexivity | discriminate].
Qed.

(** A failure of the transport leaves [_make_request] as it is. *)
Lemma make_request_transport_failure self w service params e :
  session_get w (build_request self service params) = Failed e ->
  fst (_make_request py_str self w service params) = Raise e.
Proof. intros H. unfold _make_request. simpl. now rewrite H. Qed.

(** C3 — The request executor classifies a body received with a successful
    HTTP status by its [status] member: [OK] and [ZERO_RESULTS] return the
    body, [OVER_QUERY_LIMIT] raises the quota warning, and every other value
    raises the unexpected-status error, whose message carries the rendering
    of the whole body. *)
Theorem make_request_classifies_status self w service params r b status :
  session_get w (build_request self service params) = Responded r ->
  ok r = true ->
  body r = Some b ->
  py_getitem b "status" = Return status ->
  let outcome := fst (_make_request py_str self w service params) in
  (status = JStr "OK" \/ status = JStr "ZERO_RESULTS" ->
   outcome = Return b) /\
  (status = JStr "OVER_QUERY_LIMIT" ->
   outcome = Raise (UserWarning "API Quota exceeded.")) /\
  (status <> JStr "OK" -> status <> JStr "ZERO_RESULTS" ->
   status <> JStr "OVER_QUERY_LIMIT" ->
   outcome = Raise (ValueError ("Unexpected response status:" ++
                                String "010" " " ++ py_str b))).
Proof.
  intros Hget Hok Hbody Hstatus outcome. subst outcome.
  rewrite (make_request_responded _ _ _ _ _ Hget), Hok.
  unfold response_json. rewrite Hbody. simpl. rewrite Hstatus. simpl.
  repeat split.
  - intros [-> | ->]; reflexivity.
  - intros ->; reflexivity.
  - intros H1 H2 H3.
    apply eq_str_false in H1, H2, H3. now rewrite H1, H2, H3.
Qed.

End RequestExecutor.

Lemma make_request_classifies_status_witness :
  fst (_make_request sample_str fresh
         (world_with (answer 200 zero_results_body)) "geocode" []) =
    Return zero_results_body /\
  fst (_make_request sample_str fresh
         (world_with (answer 200 over_limit_body)) "geocode" []) =
    Raise (UserWarning "API Quota exceeded.") /\
  fst (_make_request sample_str fresh
         (world_with (answer 200 denied_body)) "geocode" []) =
    Raise (ValueError ("Unexpected response status:" ++
                       String "010" " " ++ sample_str denied_body)).
Proof.
  split; [|split].
  - apply (proj1 (make_request_classifies_status sample_str fresh
                    (world_with (answer 200 zero_results_body)) "geocode" []
                    {| status_code := 200; body := Some zero_results_body |}
                    zero_results_body (JStr "ZERO_RESULTS")
                    eq_refl eq_refl eq_refl eq_refl)).
    now right.
  - apply (proj1 (proj2 (make_request_classifies_status sample_str fresh
                    (world_with (answer 200 over_limit_body)) "geocode" []
                    {| status_code := 200; body := Some over_limit_body |}
                    over_limit_body (JStr "OVER_QUERY_LIMIT")
                    eq_refl eq_refl eq_refl eq_refl))).
    reflexivity.
  - apply (proj2 (proj2 (make_request_classifies_status sample_str fresh
                    (world_with (answer 200 denied_body)) "geocode" []
                    {| status_code := 200; body := Some denied_body |}
                    denied_body (JStr "REQUEST_DENIED")
                    eq_refl eq_refl eq_refl eq_refl))); discriminate.
Defined.

(** ** The expiration policy *)

Lemma month_in_range (n : Z) :
  (1 <= snd (fst (_ord2ymd n)) <= 12)%Z.
Proof.
  unfold _ord2ymd.
  set (n0 := (((((n - 1) mod 146097) mod 36524) mod 1461) mod 365)%Z).
  assert (Hn0 : (0 <= n0 < 365)%Z) by (apply Z.mod_pos_bound; lia).
  destruct (_ || _); simpl; [lia|].
  rewrite Z.shiftr_div_pow2 by lia.
  change (2 ^ 5)%Z with 32%Z.
  set (m := ((n0 + 50) / 32)%Z).
  assert (Hm : (1 <= m <= 12)%Z).
  { subst m. split.
    - apply Z.div_le_lower_bound; lia.
    - assert ((n0 + 50) / 32 < 13)%Z
        by (apply Z.div_lt_upper_bound; lia).
      lia. }
  destruct (_ <? _)%Z eqn:E; simpl; [|lia].
  assert (m <> 1)%Z; [|lia].
  intros ->. simpl in E. lia.
Qed.




Section Expiration.

(** [expiration] never raises: the month of a [datetime] is a month. *)
Lemma expiration_returns self w :
  exists month_days,
    monthrange_days (year (utcnow w)) (month (utcnow w)) = Return month_days /\
    expiration self w =
      Return (add_days (utcnow w)
                (month_days +
                 py_round (inject_Z (_max_fuzz_days self) * random w)%Q)).
Proof.
  unfold expiration, monthrange_days, month.
  pose proof (month_in_range (toordinal (utcnow w))) as Hm.
  destruct (_ <=? _)%Z eqn:E1; [|lia].
  destruct (_ <=? 12)%Z eqn:E2; [|lia].
  simpl. eexists; split; reflexivity.
Qed.


End Expiration.


(** ** Reverse geocoding *)

Lemma length_append (s1 s2 : string) :
  String.length (s1 ++ s2) = (String.length s1 + String.length s2)%nat.
Proof. induction s1 as [|c s1 IH]; simpl; [reflexivity | now rewrite IH]. Qed.

Section ReverseGeocode.

Variable Unknown : UnknownT.
Variable py_str : json -> string.

(** The shape of [reverse_geocode] on a cache miss, by the outcome of the
    [try] block. *)
Lemma reverse_geocode_miss self w latlng language :
  cache_reverse_geocode (_cache self) (fmt_latlng latlng) = None ->
  let sent_self :=
    snd (_make_request py_str self w "geocode"
           (reverse_params latlng language)) in
  reverse_geocode Unknown py_str self w latlng language =
    match (response <- fst (_make_request py_str self w "geocode"
                              (reverse_params latlng language)) ;;
           collect_details response) with
    | Raise e =>
        (_ <- except_clauses e ;; Return (_reverse_geocode_defaults Unknown),
         sent_self)
    | Return details =>
        let dts :=
          fill_dts Unknown py_str (_reverse_geocode_defaults Unknown)
            details in
        match expiration sent_self w with
        | Raise e => (_ <- except_clauses e ;; Return dts, sent_self)
        | Return expires =>
            (Return dts,
             with_cache sent_self
               (cache_reverse_geocode_put (_cache sent_self)
                  (fmt_latlng latlng) dts expires))
        end
    end.
Proof.
  intros Hmiss. unfold reverse_geocode. rewrite Hmiss. reflexivity.
Qed.

(** Whatever the table of details, the filled [dts] obeys the composition
    rule. *)
Lemma fill_dts_address_composed details :
  address_composed py_str
    (fill_dts Unknown py_str (_reverse_geocode_defaults Unknown) details).
Proof.
  exists (dict_get_default details "street_number" (JStr (EMPTY Unknown))),
         (dict_get_default details "route" (JStr (EMPTY Unknown))).
  repeat split; reflexivity.
Qed.

(** The seed never obeys it: its [address] is the bare standard placeholder,
    shorter than any composition with it. *)
Lemma defaults_not_address_composed :
  ~ address_composed py_str (_reverse_geocode_defaults Unknown).
Proof.
  intros (sn & st & Hsn & Hst & Ha & _).
  injection Hsn as <-. injection Hst as <-. injection Ha as Ha.
  simpl in Ha. apply (f_equal String.length) in Ha.
  rewrite length_append in Ha. simpl in Ha. lia.
Qed.

(** The failure whose handler reads [e.message] leaves [reverse_geocode] by
    a new exception. *)
Lemma reverse_geocode_message_failure self w latlng language e :
  cache_reverse_geocode (_cache self) (fmt_latlng latlng) = None ->
  fst (_make_request py_str self w "geocode"
         (reverse_params latlng language)) = Raise e ->
  logged_only e = false ->
  fst (reverse_geocode Unknown py_str self w latlng language) =
    Raise AttributeError.
Proof.
  intros Hmiss Hraise Hlog.
  rewrite (reverse_geocode_miss _ _ _ _ Hmiss). cbv zeta.
  rewrite Hraise. simpl. now rewrite (except_clauses_not_logged_only _ Hlog).
Qed.

(** C7 (as amended) — On a cache miss the seed of [reverse_geocode] holds the
    SMALL placeholder in [street_num] and the REGULAR placeholder in
    [street]; when the request fails with an exception that the handlers
    only log, the call returns this seed unchanged. *)
Theorem reverse_geocode_seed_street_tiers self w latlng language e :
  cache_reverse_geocode (_cache self) (fmt_latlng latlng) = None ->
  fst (_make_request py_str self w "geocode"
         (reverse_params latlng language)) = Raise e ->
  logged_only e = true ->
  dict_get (_reverse_geocode_defaults Unknown) "street_num" =
    Some (JStr (SMALL Unknown)) /\
  dict_get (_reverse_geocode_defaults Unknown) "street" =
    Some (JStr (REGULAR Unknown)) /\
  fst (reverse_geocode Unknown py_str self w latlng language) =
    Return (_reverse_geocode_defaults Unknown).
Proof.
  intros Hmiss Hraise Hlog. repeat split.
  rewrite (reverse_geocode_miss _ _ _ _ Hmiss). cbv zeta.
  rewrite Hraise. simpl. now rewrite (except_clauses_logged_only _ Hlog).
Qed.

(** C10 — On a cache miss, a body with status [ZERO_RESULTS] and no result
    makes the iteration over [address_components] raise [TypeError] (there
    is nothing to iterate); the generic handler logs it, the call returns
    the untouched seed, and nothing is written to the cache. *)
Theorem reverse_geocode_zero_results self w latlng language r b :
  cache_reverse_geocode (_cache self) (fmt_latlng latlng) = None ->
  session_get w (build_request self "geocode"
                   (reverse_params latlng language)) = Responded r ->
  ok r = true ->
  body r = Some b ->
  py_getitem b "status" = Return (JStr "ZERO_RESULTS") ->
  py_get b "results" (JArr []) = Return (JArr []) ->
  collect_details b = Raise TypeError /\
  fst (reverse_geocode Unknown py_str self w latlng language) =
    Return (_reverse_geocode_defaults Unknown) /\
  _cache (snd (reverse_geocode Unknown py_str self w latlng language)) =
    _cache self.
Proof.
  intros Hmiss Hget Hok Hbody Hstatus Hresults.
  assert (Hcollect : collect_details b = Raise TypeError).
  { unfold collect_details. rewrite Hresults. reflexivity. }
  assert (Hret : fst (_make_request py_str self w "geocode"
                        (reverse_params latlng language)) = Return b).
  { rewrite (make_request_responded _ _ _ _ _ _ Hget), Hok.
    unfold response_json. rewrite Hbody. simpl. now rewrite Hstatus. }
  rewrite (reverse_geocode_miss _ _ _ _ Hmiss). cbv zeta.
  rewrite Hret. simpl. rewrite Hcollect. simpl.
  repeat split.
Qed.

(** C6 (as amended) — A record returned by [reverse_geocode] on a cache miss
    is of one of two kinds.  Either the request succeeded and the details
    were collected: then the record is the filled one, and its [address] is
    "{street_num} {street}" and its [address_eu] "{street} {street_num}".
    Or the [try] block raised an exception that the handlers only log: then
    the record is the seed, whose [address] and [address_eu] are both the
    REGULAR placeholder. *)
Theorem reverse_geocode_address_composition self w latlng language dts :
  cache_reverse_geocode (_cache self) (fmt_latlng latlng) = None ->
  fst (reverse_geocode Unknown py_str self w latlng language) = Return dts ->
  let attempt :=
    response <- fst (_make_request py_str self w "geocode"
                       (reverse_params latlng language)) ;;
    collect_details response in
  (exists details,
     attempt = Return details /\
     dts = fill_dts Unknown py_str (_reverse_geocode_defaults Unknown)
             details /\
     address_composed py_str dts) \/
  (exists e,
     attempt = Raise e /\ logged_only e = true /\
     dts = _reverse_geocode_defaults Unknown /\
     dict_get dts "address" = Some (JStr (REGULAR Unknown)) /\
     dict_get dts "address_eu" = Some (JStr (REGULAR Unknown))).
Proof.
  intros Hmiss. rewrite (reverse_geocode_miss _ _ _ _ Hmiss). cbv zeta.
  destruct (bind _ _) as [details|e].
  - intros Hret. left. exists details.
    assert (Hdts : dts = fill_dts Unknown py_str
                           (_reverse_geocode_defaults Unknown) details).
    { destruct (expiration _ _) as [expires|e'];
        [|destruct (except_clauses e')]; simpl in Hret; congruence. }
    subst dts. repeat split. apply fill_dts_address_composed.
  - intros Hret. right. exists e.
    destruct (logged_only e) eqn:Hlog.
    + rewrite (except_clauses_logged_only _ Hlog) in Hret. simpl in Hret.
      injection Hret as <-. repeat split.
    + rewrite (except_clauses_not_logged_only _ Hlog) in Hret. discriminate.
Qed.

End ReverseGeocode.

Lemma reverse_geocode_seed_street_tiers_witness :
  dict_get (_reverse_geocode_defaults sample_unknown) "street_num" =
    Some (JStr "?") /\
  dict_get (_reverse_geocode_defaults sample_unknown) "street" =
    Some (JStr "unknown") /\
  fst (reverse_geocode sample_unknown sample_str fresh
         (world_with (answer 200 over_limit_body)) sample_point "en") =
    Return (_reverse_geocode_defaults sample_unknown).
Proof.
  apply (reverse_geocode_seed_street_tiers sample_unknown sample_str fresh
           (world_with (answer 200 over_limit_body)) sample_point "en"
           (UserWarning "API Quota exceeded.")); reflexivity.
Defined.

(** C7 (as stated) fails: after a failed request the returned [street_num]
    and [street] are not the EMPTY placeholder. *)
Lemma reverse_geocode_seed_not_empty_tier :
  exists dts,
    fst (reverse_geocode sample_unknown sample_str fresh
           (world_with (answer 200 over_limit_body)) sample_point "en") =
      Return dts /\
    dict_get dts "street_num" <> Some (JStr (EMPTY sample_unknown)) /\
    dict_get dts "street" <> Some (JStr (EMPTY sample_unknown)).
Proof.
  eexists. split; [reflexivity|]. split; discriminate.
Qed.

Lemma reverse_geocode_zero_results_witness :
  collect_details zero_results_body = Raise TypeError /\
  fst (reverse_geocode sample_unknown sample_str fresh
         (world_with (answer 200 zero_results_body)) sample_point "en") =
    Return (_reverse_geocode_defaults sample_unknown) /\
  _cache (snd (reverse_geocode sample_unknown sample_str fresh
                 (world_with (answer 200 zero_results_body)) sample_point
                 "en")) = _cache fresh.
Proof.
  apply (reverse_geocode_zero_results sample_unknown sample_str fresh
           (world_with (answer 200 zero_results_body)) sample_point "en"
           {| status_code := 200; body := Some zero_results_body |}
           zero_results_body); reflexivity.
Defined.

Lemma reverse_geocode_address_composition_witness :
  address_composed sample_str amphitheatre_dts.
Proof.
  destruct (reverse_geocode_address_composition sample_unknown sample_str
              fresh (world_with (answer 200 amphitheatre_body)) sample_point
              "en" amphitheatre_dts eq_refl eq_refl)
    as [(details & _ & _ & H) | (e & _ & _ & H & _)].
  - exact H.
  - discriminate H.
Defined.

(** C6 (as stated) fails on the failure path: the record returned after a
    quota failure does not obey the composition rule. *)
Lemma reverse_geocode_failure_address_not_composed :
  exists dts,
    fst (reverse_geocode sample_unknown sample_str fresh
           (world_with (answer 200 over_limit_body)) sample_point "en") =
      Return dts /\
    ~ address_composed sample_str dts.
Proof.
  eexists. split; [reflexivity|].
  apply defaults_not_address_composed.
Qed.

(** ** Geocoding *)

Lemma bind_raise {A B} (r : result A) (k : A -> result B) (e : exn) :
  bind r k = Raise e ->
  r = Raise e \/ exists a, r = Return a /\ k a = Raise e.
Proof.
  destruct r as [a|e']; simpl; intros H; [right; eauto | left; congruence].
Qed.

(** Case analysis on the innermost term that blocks a [match] of a
    hypothesis, until none is left. *)
Ltac crunch H :=
  repeat (match type of H with
          | context [match ?x with _ => _ end] =>
              lazymatch x with
              | context [match _ with _ => _ end] => fail
              | _ => destruct x eqn:?
              end
          end; simpl in H; try discriminate H).

Section Geocode.

Variable py_str : json -> string.
Variable float_of_string : string -> option Q.

(** The extraction raises only exceptions that the handlers log. *)
Lemma extract_latlng_raises_logged_only b e :
  extract_latlng float_of_string b = Raise e -> logged_only e = true.
Proof.
  unfold extract_latlng, first_or_empty, py_get, py_len, py_item0,
    py_contains, py_getitem, py_float, bind.
  intros H. crunch H; injection H as <-; reflexivity.
Qed.

(** The extraction finds a coordinate only where the body holds one. *)
Lemma extract_latlng_some b latlng :
  extract_latlng float_of_string b = Return (Some latlng) ->
  has_lat_lng b = true.
Proof.
  unfold extract_latlng, first_or_empty, py_get, py_len, py_item0,
    py_contains, py_getitem, py_float, bind, dict_get_default, dict_mem.
  intros H. crunch H; subst;
    unfold has_lat_lng, location_of, member, first_element;
    repeat match goal with
           | E : ?x = _ |- context [match ?x with _ => _ end] => rewrite E
           end; simpl; try reflexivity; try discriminate.
Qed.

Lemma geocode_miss self w address language :
  cache_geocode (_cache self) (lower address) = None ->
  let sent_self :=
    snd (_make_request py_str self w "geocode"
           (geocode_params address language)) in
  geocode py_str float_of_string self w address language =
    match (response <- fst (_make_request py_str self w "geocode"
                              (geocode_params address language)) ;;
           extract_latlng float_of_string response) with
    | Raise e => (_ <- except_clauses e ;; Return None, sent_self)
    | Return None => (Return None, sent_self)
    | Return (Some latlng) =>
        match expiration sent_self w with
        | Raise e => (_ <- except_clauses e ;; Return (Some latlng), sent_self)
        | Return expires =>
            (Return (Some latlng),
             with_cache sent_self
               (cache_geocode_put (_cache sent_self) (lower address) latlng
                  expires))
        end
    end.
Proof.
  intros Hmiss. unfold geocode. rewrite Hmiss. reflexivity.
Qed.

(** A body comes back from [_make_request] only out of a response with a
    successful HTTP status. *)
Lemma make_request_return self w service params b :
  fst (_make_request py_str self w service params) = Return b ->
  exists r,
    session_get w (build_request self service params) = Responded r /\
    ok r = true /\ body r = Some b.
Proof.
  unfold _make_request. simpl.
  destruct (session_get w _) as [r|e]; [|discriminate].
  unfold response_json. intros H. exists r.
  destruct (ok r) eqn:Hok; simpl in H.
  - destruct (body r) as [b'|]; [|discriminate]. simpl in H.
    destruct (py_getitem b' "status") as [st|]; [|discriminate]. simpl in H.
    destruct (_ || _); [injection H as <-; auto|].
    destruct (eq_str st _); discriminate.
  - destruct (body r); simpl in H; [|discriminate].
    destruct (raise_for_status r) eqn:E; [|discriminate].
    unfold ok in Hok. rewrite E in Hok. discriminate.
Qed.

(** The failure that the handlers log degrades [geocode] to [None]. *)
Lemma geocode_logged_failure self w address language e :
  cache_geocode (_cache self) (lower address) = None ->
  fst (_make_request py_str self w "geocode"
         (geocode_params address language)) = Raise e ->
  logged_only e = true ->
  fst (geocode py_str float_of_string self w address language) = Return None.
Proof.
  intros Hmiss Hraise Hlog. rewrite (geocode_miss _ _ _ _ Hmiss). cbv zeta.
  rewrite Hraise. simpl. now rewrite (except_clauses_logged_only _ Hlog).
Qed.

(** The failure whose handler reads [e.message] leaves [geocode] by a new
    exception. *)
Lemma geocode_message_failure self w address language e :
  cache_geocode (_cache self) (lower address) = None ->
  fst (_make_request py_str self w "geocode"
         (geocode_params address language)) = Raise e ->
  logged_only e = false ->
  fst (geocode py_str float_of_string self w address language) =
    Raise AttributeError.
Proof.
  intros Hmiss Hraise Hlog. rewrite (geocode_miss _ _ _ _ Hmiss). cbv zeta.
  rewrite Hraise. simpl. now rewrite (except_clauses_not_logged_only _ Hlog).
Qed.

(** C8 — On a cache miss of [geocode]: when the body received with a
    successful HTTP status holds no [lat] and [lng] at
    [results[0].geometry.location] (a [ZERO_RESULTS] body for one), the call
    returns [None] without raising and leaves the cache as it was; and the
    cache is written only when both were extracted, with the expiration
    computed by [expiration]. *)
Theorem geocode_without_coordinate self w address language :
  cache_geocode (_cache self) (lower address) = None ->
  let call := geocode py_str float_of_string self w address language in
  (forall r b,
     session_get w (build_request self "geocode"
                      (geocode_params address language)) = Responded r ->
     ok r = true ->
     body r = Some b ->
     has_lat_lng b = false ->
     fst call = Return None /\ _cache (snd call) = _cache self) /\
  (_cache (snd call) <> _cache self ->
   exists r b latlng expires,
     session_get w (build_request self "geocode"
                      (geocode_params address language)) = Responded r /\
     ok r = true /\ body r = Some b /\
     has_lat_lng b = true /\
     extract_latlng float_of_string b = Return (Some latlng) /\
     expiration self w = Return expires /\
     fst call = Return (Some latlng) /\
     _cache (snd call) =
       cache_geocode_put (_cache self) (lower address) latlng expires).
Proof.
  intros Hmiss call. subst call.
  rewrite (geocode_miss _ _ _ _ Hmiss). cbv zeta.
  destruct (fst (_make_request py_str self w "geocode"
                   (geocode_params address language)))
    as [b'|e] eqn:Hreq; simpl bind.
  - destruct (make_request_return _ _ _ _ _ Hreq) as (r' & Hget' & Hok' & Hb').
    destruct (extract_latlng float_of_string b') as [[latlng|]|e] eqn:Hex.
    + pose proof (extract_latlng_some _ _ Hex) as Hhas.
      destruct (expiration_returns
                  (snd (_make_request py_str self w "geocode"
                          (geocode_params address language))) w)
        as (md & _ & Hexp).
      rewrite Hexp. simpl. split.
      * intros r b Hget _ Hb Hno. rewrite Hget in Hget'.
        injection Hget' as <-. congruence.
      * intros _. exists r', b', latlng. eexists.
        repeat split; try eassumption; reflexivity.
    + simpl. split; [auto|]. intros H; now elim H.
    + rewrite (except_clauses_logged_only _
                 (extract_latlng_raises_logged_only _ _ Hex)).
      simpl. split; [auto|]. intros H; now elim H.
  - split.
    + intros r b Hget Hok _ _.
      rewrite (except_clauses_logged_only _
                 (make_request_ok_raises_logged_only py_str _ _ _ _ _ _
                    Hget Hok Hreq)).
      simpl. auto.
    + destruct (except_clauses e); simpl; intros H; now elim H.
Qed.

End Geocode.

Lemma geocode_without_coordinate_witness :
  (fst (geocode sample_str sample_float fresh
          (world_with (answer 200 zero_results_body)) "Main St" "en") =
     Return None /\
   _cache (snd (geocode sample_str sample_float fresh
                  (world_with (answer 200 zero_results_body)) "Main St"
                  "en")) = _cache fresh) /\
  (exists r b latlng expires,
     session_get (world_with (answer 200 found_body))
       (build_request fresh "geocode" (geocode_params "Main St" "en")) =
       Responded r /\
     ok r = true /\ body r = Some b /\
     has_lat_lng b = true /\
     extract_latlng sample_float b = Return (Some latlng) /\
     expiration fresh (world_with (answer 200 found_body)) = Return expires /\
     fst (geocode sample_str sample_float fresh
            (world_with (answer 200 found_body)) "Main St" "en") =
       Return (Some latlng) /\
     _cache (snd (geocode sample_str sample_float fresh
                    (world_with (answer 200 found_body)) "Main St" "en")) =
       cache_geocode_put (_cache fresh) (lower "Main St") latlng expires).
Proof.
  split.
  - apply (proj1 (geocode_without_coordinate sample_str sample_float fresh
                    (world_with (answer 200 zero_results_body)) "Main St"
                    "en" eq_refl)
             {| status_code := 200; body := Some zero_results_body |}
             zero_results_body); reflexivity.
  - apply (proj2 (geocode_without_coordinate sample_str sample_float fresh
                    (world_with (answer 200 found_body)) "Main St" "en"
                    eq_refl)).
    simpl. discriminate.
Defined.

(** ** The distance matrix *)

Section DistanceMatrix.

Variable Unknown : UnknownT.
Variable py_str : json -> string.

(** [distance_matrix] never assigns to the memo. *)
Lemma distance_matrix_memo_frame self w mode origin dest lang units :
  _dm_hist (snd (distance_matrix Unknown py_str self w mode origin dest lang
                   units)) = _dm_hist self.
Proof.
  unfold distance_matrix.
  destruct (negb _); [reflexivity|].
  destruct (dict_get _ _); [reflexivity|].
  destruct (_make_request _ _ _ _ _) as [response self'] eqn:E.
  assert (Hself : _dm_hist self' = _dm_hist self).
  { change self' with (snd (response, self')). rewrite <- E. reflexivity. }
  destruct (bind response _); [|exact Hself].
  destruct (text_of _ _ "distance"); [|exact Hself].
  destruct (text_of _ _ "duration"); exact Hself.
Qed.

Lemma estimate_keys_differ (mode : string) :
  String.eqb (mode ++ "_distance") (mode ++ "_duration") = false.
Proof.
  apply String.eqb_neq. induction mode as [|c m IH]; [discriminate|].
  intros H. injection H as H. exact (IH H).
Qed.

Lemma valid_mode_accepted mode :
  In mode TRAVEL_MODES -> existsb (String.eqb mode) TRAVEL_MODES = true.
Proof.
  intros Hmode. apply existsb_exists. exists mode. split; [exact Hmode|].
  apply String.eqb_refl.
Qed.

(** The shape of [distance_matrix] for a valid mode and a memo miss, when
    the request raises. *)
Lemma distance_matrix_request_raises self w mode origin dest lang units e :
  In mode TRAVEL_MODES ->
  dict_get (_dm_hist self) (memo_key origin dest) = None ->
  fst (_make_request py_str self w "distancematrix"
         (matrix_params mode origin dest lang units)) = Raise e ->
  fst (distance_matrix Unknown py_str self w mode origin dest lang units) =
    (_ <- except_clauses e ;;
     Return [(mode ++ "_distance", JStr (REGULAR Unknown));
             (mode ++ "_duration", JStr (REGULAR Unknown))]).
Proof.
  intros Hmode Hmiss Hraise. unfold distance_matrix.
  rewrite (valid_mode_accepted _ Hmode). cbn [negb].
  fold (memo_key origin dest). rewrite Hmiss.
  fold (matrix_params mode origin dest lang units).
  destruct (_make_request _ _ _ _ _) as [response self'] eqn:Ereq.
  cbn [fst] in Hraise. subst response. cbn [bind fst].
  cbn [dict_set]. now rewrite estimate_keys_differ.
Qed.

(** A logged failure degrades [distance_matrix] to the default estimate; a
    failure whose handler reads [e.message] ends in a new exception. *)
Lemma distance_matrix_logged_failure self w mode origin dest lang units e :
  In mode TRAVEL_MODES ->
  dict_get (_dm_hist self) (memo_key origin dest) = None ->
  fst (_make_request py_str self w "distancematrix"
         (matrix_params mode origin dest lang units)) = Raise e ->
  logged_only e = true ->
  fst (distance_matrix Unknown py_str self w mode origin dest lang units) =
    Return [(mode ++ "_distance", JStr (REGULAR Unknown));
            (mode ++ "_duration", JStr (REGULAR Unknown))].
Proof.
  intros Hmode Hmiss Hraise Hlog.
  rewrite (distance_matrix_request_raises _ _ _ _ _ _ _ _ Hmode Hmiss Hraise).
  now rewrite (except_clauses_logged_only _ Hlog).
Qed.

Lemma distance_matrix_message_failure self w mode origin dest lang units e :
  In mode TRAVEL_MODES ->
  dict_get (_dm_hist self) (memo_key origin dest) = None ->
  fst (_make_request py_str self w "distancematrix"
         (matrix_params mode origin dest lang units)) = Raise e ->
  logged_only e = false ->
  fst (distance_matrix Unknown py_str self w mode origin dest lang units) =
    Raise AttributeError.
Proof.
  intros Hmode Hmiss Hraise Hlog.
  rewrite (distance_matrix_request_raises _ _ _ _ _ _ _ _ Hmode Hmiss Hraise).
  now rewrite (except_clauses_not_logged_only _ Hlog).
Qed.

Lemma has_colon_append (a b : string) :
  has_colon (a ++ String ":" b) = true.
Proof.
  induction a as [|c a IH]; simpl; [reflexivity|].
  rewrite IH. apply orb_true_r.
Qed.

(** No memo key is the name of a travel mode, so the memo that [__init__]
    builds answers no lookup. *)
Lemma initial_memo_never_hit api_key fuzz cache origin dest :
  dict_get (_dm_hist (__init__ api_key fuzz cache)) (memo_key origin dest) =
    None.
Proof.
  assert (Hc : has_colon (memo_key origin dest) = true)
    by exact (has_colon_append (fmt_latlng origin) (fmt_latlng dest)).
  assert (Hno : forall m, has_colon m = false ->
                          String.eqb m (memo_key origin dest) = false).
  { intros m Hm. destruct (String.eqb_spec m (memo_key origin dest));
      [congruence | reflexivity]. }
  unfold __init__, TRAVEL_MODES. cbn [_dm_hist map dict_get].
  rewrite !Hno by reflexivity. reflexivity.
Qed.

(** With the memo of [__init__], every call with a valid mode sends a
    request. *)
Lemma distance_matrix_always_dispatches self w mode origin dest lang units
    api_key fuzz cache :
  In mode TRAVEL_MODES ->
  _dm_hist self = _dm_hist (__init__ api_key fuzz cache) ->
  sent (snd (distance_matrix Unknown py_str self w mode origin dest lang
               units)) =
    (sent self ++
     [build_request self "distancematrix"
        (matrix_params mode origin dest lang units)])%list.
Proof.
  intros Hmode Hmemo. unfold distance_matrix.
  rewrite (valid_mode_accepted _ Hmode). cbn [negb].
  fold (memo_key origin dest).
  rewrite Hmemo, initial_memo_never_hit.
  fold (matrix_params mode origin dest lang units).
  destruct (_make_request _ _ _ _ _) as [response self'] eqn:Ereq.
  assert (Hself : sent self' =
                  (sent self ++
                   [build_request self "distancematrix"
                      (matrix_params mode origin dest lang units)])%list).
  { change self' with (snd (response, self')). rewrite <- Ereq. reflexivity. }
  destruct (bind response _); [|exact Hself].
  destruct (text_of _ _ "distance"); [|exact Hself].
  destruct (text_of _ _ "duration"); exact Hself.
Qed.

(** C5 — A travel mode outside [TRAVEL_MODES] makes [distance_matrix] raise
    [ValueError] at once: the exception reaches the caller (the check stands
    before the [try] block), and the object is left as it was, so neither
    the memo nor the network has been touched. *)
Theorem distance_matrix_rejects_unknown_mode self w mode origin dest lang
    units :
  ~ In mode TRAVEL_MODES ->
  distance_matrix Unknown py_str self w mode origin dest lang units =
    (Raise (ValueError ("DM doesn't support mode '" ++ mode ++ "'.")), self).
Proof.
  intros Hmode. unfold distance_matrix.
  destruct (existsb (String.eqb mode) TRAVEL_MODES) eqn:E; [|reflexivity].
  exfalso. apply Hmode. apply existsb_exists in E as (m & Hin & Heq).
  apply String.eqb_eq in Heq. now subst.
Qed.

End DistanceMatrix.

Lemma distance_matrix_rejects_unknown_mode_witness :
  distance_matrix sample_unknown sample_str fresh
    (world_with (answer 200 zero_results_body)) "flying"
    origin_point dest_point "en" "metric" =
  (Raise (ValueError "DM doesn't support mode 'flying'."), fresh).
Proof.
  apply (distance_matrix_rejects_unknown_mode sample_unknown sample_str fresh
           (world_with (answer 200 zero_results_body)) "flying").
  simpl. intros [H | [H | [H | [H | []]]]]; discriminate.
Defined.

(** C2 — evaluation at the failing input.  No call of [distance_matrix]
    changes the memo; in the scenario of two calls for one pair of points,
    the first (driving) leaves no entry under the key of the pair, and the
    second (transit) sends a request of its own and returns its own
    estimate. *)
Theorem distance_matrix_does_not_memoize :
  (forall Unknown py_str self w mode origin dest lang units,
     _dm_hist (snd (distance_matrix Unknown py_str self w mode origin dest
                      lang units)) = _dm_hist self) /\
  let w := world_with (answer 200 matrix_body) in
  let first := distance_matrix sample_unknown sample_str fresh w "driving"
                 origin_point dest_point "en" "metric" in
  let second := distance_matrix sample_unknown sample_str (snd first) w
                  "transit" origin_point dest_point "en" "metric" in
  fst first = Return [("driving_distance", JStr "5.2 km");
                      ("driving_duration", JStr "10 mins")] /\
  dict_get (_dm_hist (snd first)) (memo_key origin_point dest_point) = None /\
  fst second = Return [("transit_distance", JStr "5.2 km");
                       ("transit_duration", JStr "10 mins")] /\
  List.length (sent (snd first)) = 1%nat /\
  List.length (sent (snd second)) = 2%nat.
Proof.
  split; [apply distance_matrix_memo_frame|].
  repeat split; reflexivity.
Qed.

(** ** Degradation on remote failures *)

(** C1 — evaluation at the failing inputs.  When the response carries an
    HTTP error status (here 403 with a JSON body), or the transport times
    out, the handler of each of the three operations reads [e.message] to
    log it; the attribute does not exist, and the call ends by raising
    [AttributeError] to its caller instead of returning the default. *)
Theorem remote_http_failure_escapes :
  let http_error := world_with (answer 403 denied_body) in
  let timed_out := world_with (Failed Timeout) in
  fst (geocode sample_str sample_float fresh http_error "Main St" "en") =
    Raise AttributeError /\
  fst (geocode sample_str sample_float fresh timed_out "Main St" "en") =
    Raise AttributeError /\
  fst (reverse_geocode sample_unknown sample_str fresh http_error
         sample_point "en") = Raise AttributeError /\
  fst (reverse_geocode sample_unknown sample_str fresh timed_out
         sample_point "en") = Raise AttributeError /\
  fst (distance_matrix sample_unknown sample_str fresh http_error "driving"
         origin_point dest_point "en" "metric") = Raise AttributeError /\
  fst (distance_matrix sample_unknown sample_str fresh timed_out "driving"
         origin_point dest_point "en" "metric") = Raise AttributeError.
Proof. repeat split; reflexivity. Qed.

(** ** The rate limiter *)

Lemma Qltb_lt (x y : Q) : Qltb x y = true <-> (x < y)%Q.
Proof.
  unfold Qltb. rewrite negb_true_iff, <- not_true_iff_false, Qle_bool_iff.
  split; [apply Qnot_le_lt | apply Qlt_not_le].
Qed.

Lemma Qltb_ge (x y : Q) : Qltb x y = false <-> (y <= x)%Q.
Proof. unfold Qltb. now rewrite negb_false_iff, Qle_bool_iff. Qed.

Section RateLimiter.

Variable py_str : json -> string.

(** With a full window, the reading that is appended is at least a second
    after the oldest reading of the window. *)
Lemma dispatch_after_oldest self w :
  List.length (_window self) = _queries_per_second ->
  (0 <= delay w)%Q ->
  (hd 0%Q (_window self) + 1 <= dispatch_time self w)%Q.
Proof.
  intros Hfull Hdelay. unfold dispatch_time, rate_limit_sleep.
  rewrite Hfull, Nat.eqb_refl.
  destruct (Qltb _ 1) eqn:E.
  - lra.
  - apply Qltb_ge in E. lra.
Qed.

Lemma dispatch_after_check self w :
  (0 <= delay w)%Q -> (time_check w <= dispatch_time self w)%Q.
Proof.
  intros Hdelay. unfold dispatch_time, rate_limit_sleep.
  destruct (_ =? _)%nat; [|lra].
  destruct (Qltb _ 1) eqn:E; [|lra].
  apply Qltb_lt in E. lra.
Qed.

Lemma clock_ok_spec self w :
  clock_ok self w = true ->
  (0 <= delay w)%Q /\
  Forall (fun t => (t <= dispatch_time self w)%Q) (_window self).
Proof.
  unfold clock_ok. rewrite andb_true_iff, Qle_bool_iff, forallb_forall.
  intros [Hdelay Hwin]. split; [exact Hdelay|].
  apply Forall_forall. intros t Ht. apply Hwin in Ht.
  apply Qle_bool_iff in Ht.
  pose proof (dispatch_after_check self w Hdelay). lra.
Qed.

Lemma spaced_snoc (stamps : list Q) (s : Q) :
  spaced stamps ->
  Forall (fun x => (x <= s)%Q) stamps ->
  (List.length stamps < _queries_per_second)%nat ->
  spaced (stamps ++ [s]).
Proof.
  induction stamps as [|x later IH]; simpl; intros Hsp Hle Hlen.
  - repeat split; [constructor | intros y Hy; discriminate].
  - destruct Hsp as (Hfa & Hnth & Hlater). inversion Hle; subst.
    repeat split.
    + apply Forall_app. split; [exact Hfa|].
      constructor; [assumption | constructor].
    + intros y Hy. exfalso.
      assert (Hy' : nth_error (later ++ [s]) 49 = Some y) by exact Hy.
      assert (Hnone : nth_error (later ++ [s]) 49 = None).
      { apply nth_error_None. rewrite length_app. simpl.
        unfold _queries_per_second in *. lia. }
      congruence.
    + apply IH; [assumption | assumption | lia].
Qed.

Lemma spaced_after (before : list Q) (y : Q) (after : list Q) :
  spaced (before ++ y :: after) -> Forall (Qle y) after.
Proof.
  induction before as [|x before IH]; simpl.
  - now intros (H & _).
  - intros (_ & _ & H). now apply IH.
Qed.

Lemma spaced_tail (before after : list Q) :
  spaced (before ++ after) -> spaced after.
Proof.
  induction before as [|x before IH]; simpl; [auto|].
  intros (_ & _ & H). now apply IH.
Qed.

Lemma run_requests_cons self w service params calls :
  fst (run_requests py_str self ((w, (service, params)) :: calls)) =
    dispatch_time self w ::
    fst (run_requests py_str
           (snd (_make_request py_str self w service params)) calls).
Proof.
  simpl. now destruct (run_requests _ _ calls).
Qed.

(** The readings of a run, put after the window they start from, are
    spaced. *)
Lemma run_requests_spaced calls : forall self,
  (List.length (_window self) <= _queries_per_second)%nat ->
  spaced (_window self) ->
  clock_ok_run py_str self calls = true ->
  spaced (_window self ++ fst (run_requests py_str self calls)).
Proof.
  induction calls as [|[w [service params]] calls IH]; intros self Hlen Hsp Hok.
  - simpl. now rewrite app_nil_r.
  - rewrite run_requests_cons.
    cbn [clock_ok_run] in Hok. apply andb_true_iff in Hok as [Hclock Hrest].
    destruct (clock_ok_spec _ _ Hclock) as [Hdelay Hbefore].
    set (stamp := dispatch_time self w) in *.
    set (self' := snd (_make_request py_str self w service params)) in *.
    assert (Hwin : _window self' =
                   deque_append _queries_per_second (_window self) stamp)
      by reflexivity.
    specialize (IH self').
    destruct (Nat.eq_dec (List.length (_window self)) _queries_per_second)
      as [Hfull | Hroom].
    + pose proof (dispatch_after_oldest self w Hfull Hdelay) as Hgap.
      fold stamp in Hgap.
      destruct (_window self) as [|x rest] eqn:EW; [discriminate Hfull|].
      simpl in Hfull. injection Hfull as Hrest_len.
      assert (Hwin' : _window self' = (rest ++ [stamp])%list).
      { rewrite Hwin. unfold deque_append. cbn [app List.length].
        rewrite length_app. simpl. rewrite Hrest_len.
        reflexivity. }
      simpl in Hsp. destruct Hsp as (Hx & _ & Hsp_rest).
      inversion Hbefore as [|? ? Hx_stamp Hrest_stamp]; subst.
      rewrite Hwin' in IH.
      assert (Hgoal : spaced ((rest ++ [stamp]) ++
                              fst (run_requests py_str self' calls))).
      { apply IH.
        - rewrite length_app. simpl. unfold _queries_per_second in *. lia.
        - apply spaced_snoc; [assumption | assumption |].
          unfold _queries_per_second in *. lia.
        - exact Hrest. }
      rewrite <- app_assoc in Hgoal. cbn [app] in Hgoal.
      cbn [app spaced]. split; [|split].
      * apply Forall_app. split; [exact Hx|].
        constructor; [exact Hx_stamp|].
        pose proof (spaced_after _ _ _ Hgoal) as Hafter.
        eapply Forall_impl; [|exact Hafter].
        intros a Ha. simpl in Ha. lra.
      * intros y Hy. rewrite nth_error_app2 in Hy
          by (unfold _queries_per_second; lia).
        replace (pred _queries_per_second - List.length rest)%nat with 0%nat
          in Hy by (unfold _queries_per_second; lia).
        cbn [nth_error] in Hy. injection Hy as <-. exact Hgap.
      * exact Hgoal.
    + assert (Hwin' : _window self' = (_window self ++ [stamp])%list).
      { rewrite Hwin. unfold deque_append.
        destruct (_ <? _)%nat eqn:E; [|reflexivity].
        apply Nat.ltb_lt in E. rewrite length_app in E. simpl in E. lia. }
      rewrite Hwin' in IH.
      replace (_window self ++
               stamp :: fst (run_requests py_str self' calls))%list
        with ((_window self ++ [stamp]) ++
              fst (run_requests py_str self' calls))%list
        by (now rewrite <- app_assoc).
      apply IH.
      * rewrite length_app. simpl. lia.
      * apply spaced_snoc; [assumption | assumption | lia].
      * exact Hrest.
Qed.

Lemma spaced_nth (stamps : list Q) : forall i a b,
  spaced stamps ->
  nth_error stamps i = Some a ->
  nth_error stamps (i + _queries_per_second) = Some b ->
  (a + 1 <= b)%Q.
Proof.
  induction stamps as [|x later IH]; intros i a b Hsp Ha Hb.
  - destruct i; discriminate.
  - destruct Hsp as (_ & Hgap & Hlater). destruct i as [|i].
    + injection Ha as <-. apply Hgap. exact Hb.
    + exact (IH i a b Hlater Ha Hb).
Qed.

Lemma skipn_from_nth (l : list Q) : forall k y,
  nth_error l k = Some y -> skipn k l = y :: skipn (S k) l.
Proof.
  induction l as [|x l IH]; intros [|k] y H; try discriminate.
  - now injection H as <-.
  - apply (IH k y H).
Qed.

(** In a spaced list, a reading within the second that ends at [t] has
    fewer than [_queries_per_second] readings of that second after it. *)
Lemma spaced_count (stamps : list Q) (t : Q) :
  spaced stamps ->
  (List.length (in_trailing_second t stamps) <= _queries_per_second)%nat.
Proof.
  induction stamps as [|x later IH]; intros Hsp; [simpl; lia|].
  destruct Hsp as (Hsorted & Hgap & Hlater). specialize (IH Hlater).
  unfold in_trailing_second in *. cbn [filter].
  destruct (Qltb (t - 1) x && Qle_bool x t) eqn:Ein; [|exact IH].
  apply andb_true_iff in Ein as [Hlo _]. apply Qltb_lt in Hlo.
  cbn [List.length]. apply le_n_S.
  rewrite <- (firstn_skipn (pred _queries_per_second) later).
  rewrite filter_app, length_app.
  assert (Hout : filter (fun y => Qltb (t - 1) y && Qle_bool y t)
                   (skipn (pred _queries_per_second) later) = []).
  { destruct (nth_error later (pred _queries_per_second)) as [y|] eqn:Ey.
    - pose proof (Hgap y eq_refl) as Hy.
      assert (Hafter : Forall (Qle y)
                         (skipn (S (pred _queries_per_second)) later)).
      { apply (spaced_after (firstn (pred _queries_per_second) later)).
        rewrite <- (skipn_from_nth _ _ _ Ey), firstn_skipn. exact Hlater. }
      rewrite (skipn_from_nth _ _ _ Ey).
      apply Forall_cons with (x := y) in Hafter; [|apply Qle_refl].
      induction Hafter as [|z zs Hz _ IHzs]; [reflexivity|].
      cbn [filter]. replace (Qle_bool z t) with false.
      + rewrite andb_false_r. exact IHzs.
      + symmetry. apply not_true_iff_false. rewrite Qle_bool_iff. lra.
    - apply nth_error_None in Ey. now rewrite skipn_all2. }
  rewrite Hout. cbn [List.length]. rewrite Nat.add_0_r.
  etransitivity; [apply filter_length_le|].
  apply firstn_le_length.
Qed.

(** C4 — Sequential calls of [_make_request] on a fresh object, under a
    clock that never runs backwards and sleeps that last at least as long as
    asked: any one-second interval (t - 1, t] holds at most
    [_queries_per_second] (50) of the readings appended to the window, since
    the reading 50 places after a reading is at least one second later; when
    the window is full and less than a second has passed since its oldest
    reading, the call asks to sleep for the remainder of that second and
    appends a reading at least one second after the oldest; in particular
    the 51st of 51 calls is dispatched no earlier than one second after the
    first. *)
Theorem rate_limiter_sliding_window api_key fuzz cache calls :
  clock_ok_run py_str (__init__ api_key fuzz cache) calls = true ->
  let stamps := fst (run_requests py_str (__init__ api_key fuzz cache) calls) in
  (forall t,
     (List.length (in_trailing_second t stamps) <= _queries_per_second)%nat) /\
  (forall i a b,
     nth_error stamps i = Some a ->
     nth_error stamps (i + _queries_per_second) = Some b ->
     (a + 1 <= b)%Q) /\
  (forall self w,
     List.length (_window self) = _queries_per_second ->
     (time_check w - hd 0%Q (_window self) < 1)%Q ->
     rate_limit_sleep self w =
       Some (1 - (time_check w - hd 0%Q (_window self)))%Q /\
     (0 <= delay w ->
      hd 0%Q (_window self) + 1 <= dispatch_time self w)%Q) /\
  (List.length calls = 51%nat ->
   exists first last,
     nth_error stamps 0 = Some first /\
     nth_error stamps 50 = Some last /\
     (first + 1 <= last)%Q).
Proof.
  intros Hclock stamps.
  assert (Hsp : spaced stamps).
  { apply (run_requests_spaced calls (__init__ api_key fuzz cache));
      [simpl; unfold _queries_per_second; lia | exact I | exact Hclock]. }
  split; [|split; [|split]].
  - intros t. now apply spaced_count.
  - intros i a b. now apply spaced_nth.
  - intros self w Hfull Hsoon. split.
    + unfold rate_limit_sleep. rewrite Hfull, Nat.eqb_refl.
      apply Qltb_lt in Hsoon. now rewrite Hsoon.
    + intros Hdelay. now apply dispatch_after_oldest.
  - intros Hlen.
    assert (Hlen' : List.length stamps = 51%nat).
    { subst stamps. rewrite <- Hlen. clear.
      generalize (__init__ api_key fuzz cache).
      induction calls as [|[w [service params]] calls IH]; intros self;
        [reflexivity|].
      rewrite run_requests_cons. simpl. now rewrite IH. }
    destruct (nth_error stamps 0) as [first|] eqn:E0;
      [|apply nth_error_None in E0; lia].
    destruct (nth_error stamps 50) as [last|] eqn:E50;
      [|apply nth_error_None in E50; lia].
    exists first, last. repeat split.
    apply (spaced_nth stamps 0 first last Hsp E0 E50).
Qed.

End RateLimiter.

Lemma rate_limiter_sliding_window_witness :
  exists first last,
    nth_error (fst (run_requests sample_str fresh burst)) 0 = Some first /\
    nth_error (fst (run_requests sample_str fresh burst)) 50 = Some last /\
    (first + 1 <= last)%Q.
Proof.
  apply (proj2 (proj2 (proj2
           (rate_limiter_sliding_window sample_str "secret" 3%Z empty_cache
              burst ltac:(vm_compute; reflexivity)))));
  reflexivity.
Defined.

(** * Further properties *)

(** ** Failures that the public methods absorb *)

Lemma foldM_raises_logged_only {A B} (f : A -> B -> result A) (l : list B) :
  (forall a x e, f a x = Raise e -> logged_only e = true) ->
  forall a e, foldM f a l = Raise e -> logged_only e = true.
Proof.
  intros Hf. induction l as [|x l IH]; intros a e H; [discriminate|].
  simpl in H. apply bind_raise in H as [H | (a' & _ & H)].
  - exact (Hf _ _ _ H).
  - exact (IH _ _ H).
Qed.

Lemma store_item_raises_logged_only details item e :
  store_item details item = Raise e -> logged_only e = true.
Proof.
  unfold store_item. intros H.
  apply bind_raise in H as [H | (types & _ & H)].
  { unfold py_getitem in H. crunch H; injection H as <-; reflexivity. }
  apply bind_raise in H as [H | (categories & _ & H)].
  { unfold py_iter in H. crunch H; injection H as <-; reflexivity. }
  revert H. apply foldM_raises_logged_only. clear.
  intros a x e H. unfold store_category, py_getitem, bind in H.
  crunch H; injection H as <-; reflexivity.
Qed.

Lemma collect_details_raises_logged_only b e :
  collect_details b = Raise e -> logged_only e = true.
Proof.
  unfold collect_details. intros H.
  apply bind_raise in H as [H | (results & _ & H)].
  { unfold py_get in H. crunch H; injection H as <-; reflexivity. }
  apply bind_raise in H as [H | (first & _ & H)].
  { unfold first_or_empty, py_len, py_item0, bind in H.
    crunch H; injection H as <-; reflexivity. }
  apply bind_raise in H as [H | (components & _ & H)].
  { unfold py_get in H. crunch H; injection H as <-; reflexivity. }
  apply bind_raise in H as [H | (items & _ & H)].
  { unfold py_iter in H. crunch H; injection H as <-; reflexivity. }
  revert H. apply foldM_raises_logged_only.
  intros a x e'. apply store_item_raises_logged_only.
Qed.

Lemma extract_element_raises_logged_only b e :
  extract_element b = Raise e -> logged_only e = true.
Proof.
  unfold extract_element, first_or_empty, py_get, py_len, py_item0, bind.
  intros H. crunch H; injection H as <-; reflexivity.
Qed.

Lemma text_of_raises_logged_only Unknown el field e :
  text_of Unknown el field = Raise e -> logged_only e = true.
Proof.
  unfold text_of, py_get, bind.
  intros H. crunch H; injection H as <-; reflexivity.
Qed.

(** After an absorbed outcome, [_make_request] raises only what the handlers
    log. *)
Lemma make_request_absorbed py_str self w service params e :
  absorbed (session_get w (build_request self service params)) = true ->
  fst (_make_request py_str self w service params) = Raise e ->
  logged_only e = true.
Proof.
  unfold absorbed.
  destruct (session_get w (build_request self service params))
    as [r|e'] eqn:Hget.
  - destruct (ok r) eqn:Hok; cbn [orb].
    + intros _. now apply (make_request_ok_raises_logged_only py_str _ _ _ _ r).
    + destruct (body r) as [b|] eqn:Hb; [discriminate|]. intros _.
      rewrite (make_request_responded _ _ _ _ _ _ Hget), Hok.
      unfold response_json. rewrite Hb. simpl. now intros [= <-].
  - intros Hlog. rewrite (make_request_transport_failure _ _ _ _ _ _ Hget).
    now intros [= <-].
Qed.

(** X1 — Whatever the body, [geocode] returns normally after an absorbed
    outcome of the transport. *)
Theorem geocode_absorbs_failures py_str float_of_string self w address
    language :
  absorbed (session_get w (build_request self "geocode"
                             (geocode_params address language))) = true ->
  exists latlng,
    fst (geocode py_str float_of_string self w address language) =
      Return latlng.
Proof.
  intros Habs.
  destruct (cache_geocode (_cache self) (lower address)) as [hit|] eqn:Hc.
  { unfold geocode. rewrite Hc. eexists; reflexivity. }
  rewrite (geocode_miss _ _ _ _ _ _ Hc). cbv zeta.
  destruct (fst (_make_request py_str self w "geocode"
                   (geocode_params address language))) as [b|e] eqn:Hreq;
    simpl bind.
  - destruct (extract_latlng float_of_string b) as [[latlng|]|e] eqn:Hex.
    + destruct (expiration_returns
                  (snd (_make_request py_str self w "geocode"
                          (geocode_params address language))) w)
        as (md & _ & Hexp).
      eexists. rewrite Hexp. reflexivity.
    + eexists; reflexivity.
    + eexists.
      rewrite (except_clauses_logged_only _
                 (extract_latlng_raises_logged_only _ _ _ Hex)).
      reflexivity.
  - eexists.
    rewrite (except_clauses_logged_only _
               (make_request_absorbed _ _ _ _ _ _ Habs Hreq)).
    reflexivity.
Qed.

Lemma geocode_absorbs_failures_witness :
  exists latlng,
    fst (geocode sample_str sample_float fresh (world_with (not_json 503))
           "Main St" "en") = Return latlng.
Proof.
  apply (geocode_absorbs_failures sample_str sample_float fresh
           (world_with (not_json 503)) "Main St" "en").
  reflexivity.
Defined.

(** X2 — Whatever the body, [reverse_geocode] returns normally after an
    absorbed outcome of the transport. *)
Theorem reverse_geocode_absorbs_failures Unknown py_str self w latlng
    language :
  absorbed (session_get w (build_request self "geocode"
                             (reverse_params latlng language))) = true ->
  exists dts,
    fst (reverse_geocode Unknown py_str self w latlng language) = Return dts.
Proof.
  intros Habs.
  destruct (cache_reverse_geocode (_cache self) (fmt_latlng latlng))
    as [hit|] eqn:Hc.
  { unfold reverse_geocode. rewrite Hc. eexists; reflexivity. }
  rewrite (reverse_geocode_miss _ _ _ _ _ _ Hc). cbv zeta.
  destruct (fst (_make_request py_str self w "geocode"
                   (reverse_params latlng language))) as [b|e] eqn:Hreq;
    simpl bind.
  - destruct (collect_details b) as [details|e] eqn:Hcol.
    + destruct (expiration_returns
                  (snd (_make_request py_str self w "geocode"
                          (reverse_params latlng language))) w)
        as (md & _ & Hexp).
      eexists. rewrite Hexp. reflexivity.
    + eexists.
      rewrite (except_clauses_logged_only _
                 (collect_details_raises_logged_only _ _ Hcol)).
      reflexivity.
  - eexists.
    rewrite (except_clauses_logged_only _
               (make_request_absorbed _ _ _ _ _ _ Habs Hreq)).
    reflexivity.
Qed.

Lemma reverse_geocode_absorbs_failures_witness :
  exists dts,
    fst (reverse_geocode sample_unknown sample_str fresh
           (world_with (Failed ConnectionError)) sample_point "en") =
      Return dts.
Proof.
  apply (reverse_geocode_absorbs_failures sample_unknown sample_str fresh
           (world_with (Failed ConnectionError)) sample_point "en").
  reflexivity.
Defined.

(** ** The distance matrix, path by path *)

Lemma estimate_start (mode : string) (a b : json) :
  dict_set (dict_set [] (mode ++ "_distance") a) (mode ++ "_duration") b =
    [(mode ++ "_distance", a); (mode ++ "_duration", b)].
Proof. cbn [dict_set]. now rewrite estimate_keys_differ. Qed.

Lemma estimate_set_distance (mode : string) (a b c : json) :
  dict_set [(mode ++ "_distance", a); (mode ++ "_duration", b)]
    (mode ++ "_distance") c =
    [(mode ++ "_distance", c); (mode ++ "_duration", b)].
Proof. cbn [dict_set]. now rewrite String.eqb_refl. Qed.

Lemma estimate_set_duration (mode : string) (a b c : json) :
  dict_set [(mode ++ "_distance", a); (mode ++ "_duration", b)]
    (mode ++ "_duration") c =
    [(mode ++ "_distance", a); (mode ++ "_duration", c)].
Proof.
  cbn [dict_set]. rewrite estimate_keys_differ.
  now rewrite String.eqb_refl.
Qed.

(** The shape of [distance_matrix] for a valid mode and a memo miss. *)
Lemma distance_matrix_miss Unknown py_str self w mode origin dest lang
    units :
  In mode TRAVEL_MODES ->
  dict_get (_dm_hist self) (memo_key origin dest) = None ->
  fst (distance_matrix Unknown py_str self w mode origin dest lang units) =
    match (response <- fst (_make_request py_str self w "distancematrix"
                              (matrix_params mode origin dest lang units)) ;;
           extract_element response) with
    | Raise e => _ <- except_clauses e ;; Return (default_estimate Unknown mode)
    | Return element =>
        match text_of Unknown element "distance" with
        | Raise e =>
            _ <- except_clauses e ;; Return (default_estimate Unknown mode)
        | Return distance =>
            match text_of Unknown element "duration" with
            | Raise e =>
                _ <- except_clauses e ;;
                Return [(mode ++ "_distance", distance);
                        (mode ++ "_duration", JStr (REGULAR Unknown))]
            | Return duration =>
                Return [(mode ++ "_distance", distance);
                        (mode ++ "_duration", duration)]
            end
        end
    end.
Proof.
  intros Hmode Hmiss. unfold distance_matrix.
  rewrite (valid_mode_accepted _ Hmode). cbn [negb].
  fold (memo_key origin dest). rewrite Hmiss.
  fold (matrix_params mode origin dest lang units).
  destruct (_make_request _ _ _ _ _) as [response self'].
  cbn [fst]. fold (extract_element).
  change (response0 <- response ;;
          response1 <- py_get response0 "rows" (JArr []) ;;
          response2 <- first_or_empty response1 ;;
          response3 <- py_get response2 "elements" (JArr []) ;;
          first_or_empty response3)
    with (response0 <- response ;; extract_element response0).
  rewrite estimate_start. unfold default_estimate.
  destruct (bind response _) as [element|e]; [|reflexivity].
  destruct (text_of Unknown element "distance") as [distance|e];
    [|reflexivity].
  rewrite estimate_set_distance.
  destruct (text_of Unknown element "duration") as [duration|e];
    [|reflexivity].
  now rewrite estimate_set_duration.
Qed.

(** X3 — For a valid mode, [distance_matrix] returns normally after an
    absorbed outcome of the transport, whatever the body. *)
Theorem distance_matrix_absorbs_failures Unknown py_str self w mode origin
    dest lang units :
  In mode TRAVEL_MODES ->
  absorbed (session_get w (build_request self "distancematrix"
                             (matrix_params mode origin dest lang units))) =
    true ->
  exists dts,
    fst (distance_matrix Unknown py_str self w mode origin dest lang units) =
      Return dts.
Proof.
  intros Hmode Habs.
  destruct (dict_get (_dm_hist self) (memo_key origin dest)) as [memo|]
    eqn:Hmemo.
  { unfold distance_matrix. rewrite (valid_mode_accepted _ Hmode).
    cbn [negb]. fold (memo_key origin dest). rewrite Hmemo.
    eexists; reflexivity. }
  rewrite (distance_matrix_miss _ _ _ _ _ _ _ _ _ Hmode Hmemo).
  destruct (fst (_make_request py_str self w "distancematrix"
                   (matrix_params mode origin dest lang units)))
    as [b|e] eqn:Hreq; simpl bind.
  - destruct (extract_element b) as [element|e] eqn:Hel.
    + destruct (text_of Unknown element "distance") as [distance|e] eqn:Hd.
      * destruct (text_of Unknown element "duration") as [duration|e]
          eqn:Ht.
        -- eexists; reflexivity.
        -- eexists.
           rewrite (except_clauses_logged_only _
                      (text_of_raises_logged_only _ _ _ _ Ht)).
           reflexivity.
      * eexists.
        rewrite (except_clauses_logged_only _
                   (text_of_raises_logged_only _ _ _ _ Hd)).
        reflexivity.
    + eexists.
      rewrite (except_clauses_logged_only _
                 (extract_element_raises_logged_only _ _ Hel)).
      reflexivity.
  - eexists.
    rewrite (except_clauses_logged_only _
               (make_request_absorbed _ _ _ _ _ _ Habs Hreq)).
    reflexivity.
Qed.

Lemma distance_matrix_absorbs_failures_witness :
  exists dts,
    fst (distance_matrix sample_unknown sample_str fresh
           (world_with (answer 200 over_limit_body)) "walking" origin_point
           dest_point "en" "metric") = Return dts.
Proof.
  apply (distance_matrix_absorbs_failures sample_unknown sample_str fresh
           (world_with (answer 200 over_limit_body)) "walking" origin_point
           dest_point "en" "metric").
  - simpl. auto.
  - reflexivity.
Defined.

(** X4 — A returned estimate always has exactly the two keys of its mode,
    distance first, whichever path produced it. *)
Theorem distance_matrix_result_keys Unknown py_str self w mode origin dest
    lang units dts :
  In mode TRAVEL_MODES ->
  dict_get (_dm_hist self) (memo_key origin dest) = None ->
  fst (distance_matrix Unknown py_str self w mode origin dest lang units) =
    Return dts ->
  keys dts = [mode ++ "_distance"; mode ++ "_duration"].
Proof.
  intros Hmode Hmemo.
  rewrite (distance_matrix_miss _ _ _ _ _ _ _ _ _ Hmode Hmemo).
  destruct (bind _ _) as [element|e].
  - destruct (text_of Unknown element "distance") as [distance|e].
    + destruct (text_of Unknown element "duration") as [duration|e].
      * now intros [= <-].
      * destruct (except_clauses e); simpl; [now intros [= <-]|discriminate].
    + destruct (except_clauses e); simpl; [now intros [= <-]|discriminate].
  - destruct (except_clauses e); simpl; [now intros [= <-]|discriminate].
Qed.

Lemma distance_matrix_result_keys_witness :
  keys [("driving_distance", JStr "5.2 km");
        ("driving_duration", JStr "unknown")] =
    ["driving_distance"; "driving_duration"].
Proof.
  apply (distance_matrix_result_keys sample_unknown sample_str fresh
           (world_with (answer 200 partial_matrix_body)) "driving"
           origin_point dest_point "en" "metric").
  - simpl. auto.
  - reflexivity.
  - reflexivity.
Defined.

(** The extraction follows the documented path. *)
Lemma extract_element_found b element :
  element_of b = Some element -> extract_element b = Return element.
Proof.
  unfold element_of, member, first_element. intros H. crunch H.
  injection H as ->. subst.
  unfold extract_element, py_get, dict_get_default.
  repeat match goal with E : dict_get _ _ = Some _ |- _ => rewrite E end.
  simpl. repeat match goal with E : dict_get _ _ = Some _ |- _ => rewrite E end.
  reflexivity.
Qed.

Lemma text_of_found Unknown element field text :
  text_at element field = Some text ->
  text_of Unknown element field = Return text.
Proof.
  unfold text_at, member. intros H. crunch H. subst.
  unfold text_of, py_get, dict_get_default.
  repeat match goal with E : dict_get _ _ = Some _ |- _ => rewrite E end.
  simpl. now rewrite H.
Qed.

(** A body accepted by [_make_request] comes back from it. *)
Lemma make_request_accepts py_str self w service params r b :
  session_get w (build_request self service params) = Responded r ->
  ok r = true ->
  body r = Some b ->
  member b "status" = Some (JStr "OK") \/
  member b "status" = Some (JStr "ZERO_RESULTS") ->
  fst (_make_request py_str self w service params) = Return b.
Proof.
  intros Hget Hok Hbody Hstatus.
  rewrite (make_request_responded _ _ _ _ _ _ Hget), Hok.
  unfold response_json. rewrite Hbody. simpl.
  unfold member in Hstatus. unfold py_getitem.
  destruct b; try (destruct Hstatus; discriminate).
  destruct Hstatus as [-> | ->]; reflexivity.
Qed.

(** X5 — When the accepted body holds the texts of distance and duration at
    [rows[0].elements[0]], the estimate carries both. *)
Theorem distance_matrix_full_estimate Unknown py_str self w mode origin dest
    lang units r b element distance duration :
  In mode TRAVEL_MODES ->
  dict_get (_dm_hist self) (memo_key origin dest) = None ->
  session_get w (build_request self "distancematrix"
                   (matrix_params mode origin dest lang units)) =
    Responded r ->
  ok r = true ->
  body r = Some b ->
  member b "status" = Some (JStr "OK") ->
  element_of b = Some element ->
  text_at element "distance" = Some distance ->
  text_at element "duration" = Some duration ->
  fst (distance_matrix Unknown py_str self w mode origin dest lang units) =
    Return [(mode ++ "_distance", distance); (mode ++ "_duration", duration)].
Proof.
  intros Hmode Hmemo Hget Hok Hbody Hstatus Hel Hd Ht.
  rewrite (distance_matrix_miss _ _ _ _ _ _ _ _ _ Hmode Hmemo).
  rewrite (make_request_accepts _ _ _ _ _ _ _ Hget Hok Hbody
             (or_introl Hstatus)).
  simpl bind. rewrite (extract_element_found _ _ Hel).
  now rewrite (text_of_found _ _ _ _ Hd), (text_of_found _ _ _ _ Ht).
Qed.

Lemma distance_matrix_full_estimate_witness :
  fst (distance_matrix sample_unknown sample_str fresh
         (world_with (answer 200 matrix_body)) "biking" origin_point
         dest_point "en" "imperial") =
    Return [("biking_distance", JStr "5.2 km");
            ("biking_duration", JStr "10 mins")].
Proof.
  apply (distance_matrix_full_estimate sample_unknown sample_str fresh
           (world_with (answer 200 matrix_body)) "biking" origin_point
           dest_point "en" "imperial"
           {| status_code := 200; body := Some matrix_body |} matrix_body
           (JObj [("distance", JObj [("text", JStr "5.2 km")]);
                  ("duration", JObj [("text", JStr "10 mins")])]));
    try reflexivity.
  simpl. auto.
Defined.

(** X6 — The two texts are filled one after the other inside the [try]
    block.  When the distance cannot be read, neither key is filled, even if
    the duration is there; when only the duration cannot be read, the
    distance stays filled and the duration keeps its placeholder. *)
Theorem distance_matrix_partial_estimate Unknown py_str self w mode origin
    dest lang units b element :
  In mode TRAVEL_MODES ->
  dict_get (_dm_hist self) (memo_key origin dest) = None ->
  fst (_make_request py_str self w "distancematrix"
         (matrix_params mode origin dest lang units)) = Return b ->
  element_of b = Some element ->
  (forall e, text_of Unknown element "distance" = Raise e ->
     fst (distance_matrix Unknown py_str self w mode origin dest lang units) =
       Return (default_estimate Unknown mode)) /\
  (forall distance e,
     text_of Unknown element "distance" = Return distance ->
     text_of Unknown element "duration" = Raise e ->
     fst (distance_matrix Unknown py_str self w mode origin dest lang units) =
       Return [(mode ++ "_distance", distance);
               (mode ++ "_duration", JStr (REGULAR Unknown))]).
Proof.
  intros Hmode Hmemo Hreq Hel.
  rewrite (distance_matrix_miss _ _ _ _ _ _ _ _ _ Hmode Hmemo), Hreq.
  simpl bind. rewrite (extract_element_found _ _ Hel). split.
  - intros e Hd. rewrite Hd.
    now rewrite (except_clauses_logged_only _
                   (text_of_raises_logged_only _ _ _ _ Hd)).
  - intros distance e Hd Ht. rewrite Hd, Ht.
    now rewrite (except_clauses_logged_only _
                   (text_of_raises_logged_only _ _ _ _ Ht)).
Qed.

Lemma distance_matrix_partial_estimate_witness :
  fst (distance_matrix sample_unknown sample_str fresh
         (world_with (answer 200 partial_matrix_body)) "driving"
         origin_point dest_point "en" "metric") =
    Return [("driving_distance", JStr "5.2 km");
            ("driving_duration", JStr "unknown")].
Proof.
  apply (proj2 (distance_matrix_partial_estimate sample_unknown sample_str
                  fresh (world_with (answer 200 partial_matrix_body))
                  "driving" origin_point dest_point "en" "metric"
                  partial_matrix_body
                  (JObj [("distance", JObj [("text", JStr "5.2 km")]);
                         ("duration", JStr "10 mins")])
                  (or_intror (or_intror (or_introl eq_refl)))
                  eq_refl eq_refl eq_refl)
           (JStr "5.2 km") AttributeError);
    reflexivity.
Defined.

(** ** Geocoding and the cache *)








(** ** Reverse geocoding and the cache *)





(** ** The table of address components *)

Lemma dict_get_set_same {V} (d : dict V) (k : string) (v : V) :
  dict_get (dict_set d k v) k = Some v.
Proof.
  induction d as [|[k' v'] d IH]; simpl.
  - now rewrite String.eqb_refl.
  - destruct (String.eqb k' k) eqn:E; simpl.
    + now rewrite String.eqb_refl.
    + now rewrite E.
Qed.

Lemma dict_get_set_other {V} (d : dict V) (k k' : string) (v : V) :
  k <> k' -> dict_get (dict_set d k v) k' = dict_get d k'.
Proof.
  intros Hne. induction d as [|[k0 v0] d IH]; simpl.
  - apply String.eqb_neq in Hne. now rewrite Hne.
  - destruct (String.eqb k0 k) eqn:E; simpl.
    + apply String.eqb_eq in E. subst k0.
      apply String.eqb_neq in Hne. now rewrite Hne.
    + now rewrite IH.
Qed.

(** One pass of the inner loop: the categories of the item take its short
    name, the others keep what they had. *)
Lemma store_categories_lookup item short_name c categories :
  py_getitem item "short_name" = Return short_name ->
  forall details details',
    foldM (store_category item) details categories = Return details' ->
    dict_get details' c =
      if existsb (fun x => eq_str x c) categories
      then Some short_name
      else dict_get details c.
Proof.
  intros Hname. induction categories as [|x categories IH];
    intros details details' H.
  - injection H as <-. reflexivity.
  - cbn [foldM] in H. unfold store_category at 1 in H.
    rewrite Hname in H. cbn [bind] in H.
    destruct x; try discriminate; cbn [bind existsb eq_str orb] in *;
      try (exact (IH _ _ H)).
    rewrite (IH _ _ H).
    destruct (existsb _ categories); [now rewrite orb_true_r|].
    rewrite orb_false_r.
    destruct (String.eqb s c) eqn:E.
    + apply String.eqb_eq in E. subst. apply dict_get_set_same.
    + apply dict_get_set_other. now apply String.eqb_neq.
Qed.

Lemma store_item_lookup details item details' c :
  store_item details item = Return details' ->
  (mentions item c = false -> dict_get details' c = dict_get details c) /\
  (mentions item c = true ->
   exists short_name,
     py_getitem item "short_name" = Return short_name /\
     dict_get details' c = Some short_name).
Proof.
  unfold store_item, mentions. intros H.
  destruct (py_getitem item "types") as [types|]; [|discriminate].
  cbn [bind] in *.
  destruct (py_iter types) as [categories|]; [|discriminate].
  cbn [bind] in *.
  destruct (py_getitem item "short_name") as [short_name|e] eqn:Hname.
  - rewrite (store_categories_lookup _ _ c _ Hname _ _ H).
    split; intros ->; eauto.
  - destruct categories as [|x categories].
    + injection H as <-. split; [reflexivity | discriminate].
    + cbn [foldM] in H. unfold store_category at 1 in H.
      rewrite Hname in H. discriminate.
Qed.

(** X11 — The table built by the two loops gives a category the short name of
    the last component that lists it. *)
Theorem components_last_wins before item after details c short_name :
  foldM store_item [] (before ++ item :: after) = Return details ->
  mentions item c = true ->
  (forall later, In later after -> mentions later c = false) ->
  py_getitem item "short_name" = Return short_name ->
  dict_get details c = Some short_name.
Proof.
  intros Hrun Hitem Hafter Hname.
  assert (Hpost : forall items d d',
            foldM store_item d items = Return d' ->
            (forall later, In later items -> mentions later c = false) ->
            dict_get d' c = dict_get d c).
  { induction items as [|x items IH]; intros d d' H Hno.
    - now injection H as <-.
    - cbn [foldM] in H.
      destruct (store_item d x) as [d1|] eqn:E; [|discriminate].
      cbn [bind] in H. rewrite (IH _ _ H) by (intros; apply Hno; now right).
      apply (proj1 (store_item_lookup _ _ _ c E)).
      apply Hno. now left. }
  revert Hrun. generalize (@nil (string * json)) as d.
  induction before as [|x before IH]; intros d H.
  - cbn [app foldM] in H.
    destruct (store_item d item) as [d1|] eqn:E; [|discriminate].
    cbn [bind] in H. rewrite (Hpost _ _ _ H Hafter).
    destruct (proj2 (store_item_lookup _ _ _ c E) Hitem) as (v & Hv & Hget).
    congruence.
  - cbn [app foldM] in H.
    destruct (store_item d x) as [d1|]; [|discriminate].
    exact (IH _ H).
Qed.

Lemma components_last_wins_witness :
  dict_get [("locality", JStr "Mountain View"); ("political", JStr "US");
            ("country", JStr "US")] "political" = Some (JStr "US").
Proof.
  apply (components_last_wins
           [JObj [("types", JArr [JStr "locality"; JStr "political"]);
                  ("short_name", JStr "Mountain View")]]
           (JObj [("types", JArr [JStr "country"; JStr "political"]);
                  ("short_name", JStr "US")])
           []
           [("locality", JStr "Mountain View"); ("political", JStr "US");
            ("country", JStr "US")] "political" (JStr "US"));
    try reflexivity.
  intros later [].
Defined.

(** X12 — A category that no component lists is absent from the table. *)
Theorem components_absent items details c :
  foldM store_item [] items = Return details ->
  (forall item, In item items -> mentions item c = false) ->
  dict_get details c = None.
Proof.
  intros Hrun Hno.
  change None with (dict_get (@nil (string * json)) c).
  revert Hrun. generalize (@nil (string * json)) as d.
  induction items as [|x items IH]; intros d H.
  - now injection H as <-.
  - cbn [foldM] in H.
    destruct (store_item d x) as [d1|] eqn:E; [|discriminate].
    cbn [bind] in H.
    rewrite (IH (fun item Hin => Hno item (or_intror Hin)) _ H).
    apply (proj1 (store_item_lookup _ _ _ c E)). apply Hno. now left.
Qed.

Lemma components_absent_witness :
  dict_get [("locality", JStr "Mountain View"); ("political", JStr "US");
            ("country", JStr "US")] "route" = None.
Proof.
  apply (components_absent two_components).
  - reflexivity.
  - intros item [<- | [<- | []]]; reflexivity.
Defined.

(** X13 — A record returned by [reverse_geocode] on a cache miss always has
    the same eleven keys, in the same order, on the success path as on the
    failure path. *)
Theorem reverse_geocode_result_keys Unknown py_str self w latlng language
    dts :
  cache_reverse_geocode (_cache self) (fmt_latlng latlng) = None ->
  fst (reverse_geocode Unknown py_str self w latlng language) = Return dts ->
  keys dts = dts_keys.
Proof.
  intros Hmiss. rewrite (reverse_geocode_miss _ _ _ _ _ _ Hmiss). cbv zeta.
  destruct (bind _ _) as [details|e].
  - assert (Hk : keys (fill_dts Unknown py_str
                         (_reverse_geocode_defaults Unknown) details) =
                 dts_keys) by reflexivity.
    destruct (expiration _ _) as [expires|e]; cbn [fst].
    + now intros [= <-].
    + destruct (except_clauses e); simpl; [now intros [= <-]|discriminate].
  - destruct (except_clauses e); simpl; [now intros [= <-]|discriminate].
Qed.

Lemma reverse_geocode_result_keys_witness :
  keys amphitheatre_dts = dts_keys /\
  keys (_reverse_geocode_defaults sample_unknown) = dts_keys.
Proof.
  split.
  - apply (reverse_geocode_result_keys sample_unknown sample_str fresh
             (world_with (answer 200 amphitheatre_body)) sample_point "en");
      reflexivity.
  - apply (reverse_geocode_result_keys sample_unknown sample_str fresh
             (world_with (answer 200 zero_results_body)) sample_point "en");
      reflexivity.
Defined.

(** ** What a call sends and what it leaves alone *)

(** X14 — A public method sends at most one request: none on a cache or memo
    hit or for an invalid mode, and otherwise exactly the request built for
    its service and parameters, whatever the outcome. *)
Theorem one_request_per_call Unknown py_str float_of_string self w :
  (forall address language,
     sent (snd (geocode py_str float_of_string self w address language)) =
       match cache_geocode (_cache self) (lower address) with
       | Some _ => sent self
       | None =>
           (sent self ++
            [build_request self "geocode"
               (geocode_params address language)])%list
       end) /\
  (forall latlng language,
     sent (snd (reverse_geocode Unknown py_str self w latlng language)) =
       match cache_reverse_geocode (_cache self) (fmt_latlng latlng) with
       | Some _ => sent self
       | None =>
           (sent self ++
            [build_request self "geocode"
               (reverse_params latlng language)])%list
       end) /\
  (forall mode origin dest lang units,
     sent (snd (distance_matrix Unknown py_str self w mode origin dest lang
                  units)) =
       if existsb (String.eqb mode) TRAVEL_MODES then
         match dict_get (_dm_hist self) (memo_key origin dest) with
         | Some _ => sent self
         | None =>
             (sent self ++
              [build_request self "distancematrix"
                 (matrix_params mode origin dest lang units)])%list
         end
       else sent self).
Proof.
  split; [|split].
  - intros address language. unfold geocode.
    destruct (cache_geocode _ _); [reflexivity|].
    fold (geocode_params address language).
    destruct (_make_request _ _ _ _ _) as [response self'] eqn:E.
    assert (Hs : sent self' =
                 (sent self ++ [build_request self "geocode"
                                  (geocode_params address language)])%list).
    { change self' with (snd (response, self')). now rewrite <- E. }
    destruct (bind response _) as [[latlng|]|e]; try exact Hs.
    destruct (expiration self' w); exact Hs.
  - intros latlng language. unfold reverse_geocode.
    destruct (cache_reverse_geocode _ _); [reflexivity|].
    fold (reverse_params latlng language).
    destruct (_make_request _ _ _ _ _) as [response self'] eqn:E.
    assert (Hs : sent self' =
                 (sent self ++ [build_request self "geocode"
                                  (reverse_params latlng language)])%list).
    { change self' with (snd (response, self')). now rewrite <- E. }
    destruct (bind response _) as [details|e]; try exact Hs.
    destruct (expiration self' w); exact Hs.
  - intros mode origin dest lang units. unfold distance_matrix.
    destruct (existsb _ _); [|reflexivity]. cbn [negb].
    fold (memo_key origin dest).
    destruct (dict_get _ _); [reflexivity|].
    fold (matrix_params mode origin dest lang units).
    destruct (_make_request _ _ _ _ _) as [response self'] eqn:E.
    assert (Hs : sent self' =
                 (sent self ++
                  [build_request self "distancematrix"
                     (matrix_params mode origin dest lang units)])%list).
    { change self' with (snd (response, self')). now rewrite <- E. }
    destruct (bind response _); [|exact Hs].
    destruct (text_of _ _ "distance"); [|exact Hs].
    destruct (text_of _ _ "duration"); exact Hs.
Qed.

(** The fields that [_make_request], and so every method, leaves alone. *)
Lemma make_request_keeps py_str self w service params :
  let self' := snd (_make_request py_str self w service params) in
  _key self' = _key self /\
  _max_fuzz_days self' = _max_fuzz_days self /\
  _dm_hist self' = _dm_hist self /\
  _cache self' = _cache self.
Proof. repeat split. Qed.

(** X15 — No public method changes the API key, the fuzz parameter or the
    memo of the object; [distance_matrix] does not touch the cache at all,
    [geocode] leaves the reverse-geocode entries alone and
    [reverse_geocode] the geocode entries. *)
Theorem methods_keep_configuration Unknown py_str float_of_string self w :
  (forall address language,
     let self' :=
       snd (geocode py_str float_of_string self w address language) in
     _key self' = _key self /\
     _max_fuzz_days self' = _max_fuzz_days self /\
     _dm_hist self' = _dm_hist self /\
     reverse_geocode_entries (_cache self') =
       reverse_geocode_entries (_cache self)) /\
  (forall latlng language,
     let self' :=
       snd (reverse_geocode Unknown py_str self w latlng language) in
     _key self' = _key self /\
     _max_fuzz_days self' = _max_fuzz_days self /\
     _dm_hist self' = _dm_hist self /\
     geocode_entries (_cache self') = geocode_entries (_cache self)) /\
  (forall mode origin dest lang units,
     let self' :=
       snd (distance_matrix Unknown py_str self w mode origin dest lang
              units) in
     _key self' = _key self /\
     _max_fuzz_days self' = _max_fuzz_days self /\
     _dm_hist self' = _dm_hist self /\
     _cache self' = _cache self).
Proof.
  split; [|split].
  - intros address language. unfold geocode.
    destruct (cache_geocode _ _); [repeat split|].
    destruct (_make_request _ _ _ _ _) as [response self'] eqn:E.
    pose proof (make_request_keeps py_str self w "geocode"
                  [("address", lower address); ("language", language)])
      as Hk.
    rewrite E in Hk. cbn [snd] in Hk. destruct Hk as (H1 & H2 & H3 & H4).
    destruct (bind response _) as [[latlng|]|e]; cbn [snd];
      try (rewrite H4; auto).
    destruct (expiration self' w); cbn [snd with_cache _key _max_fuzz_days
      _dm_hist _cache cache_geocode_put reverse_geocode_entries];
      rewrite ?H4; auto.
  - intros latlng language. unfold reverse_geocode.
    destruct (cache_reverse_geocode _ _); [repeat split|].
    destruct (_make_request _ _ _ _ _) as [response self'] eqn:E.
    pose proof (make_request_keeps py_str self w "geocode"
                  [("latlng", fmt_latlng latlng); ("language", language)])
      as Hk.
    rewrite E in Hk. cbn [snd] in Hk. destruct Hk as (H1 & H2 & H3 & H4).
    destruct (bind response _) as [details|e]; cbn [snd];
      try (rewrite H4; auto).
    destruct (expiration self' w); cbn [snd with_cache _key _max_fuzz_days
      _dm_hist _cache cache_reverse_geocode_put geocode_entries];
      rewrite ?H4; auto.
  - intros mode origin dest lang units. unfold distance_matrix.
    destruct (negb _); [repeat split|].
    destruct (dict_get _ _); [repeat split|].
    destruct (_make_request _ _ _ _ _) as [response self'] eqn:E.
    pose proof (make_request_keeps py_str self w "distancematrix"
                  [("mode", mode); ("origins", fmt_latlng origin);
                   ("destinations", fmt_latlng dest); ("language", lang);
                   ("units", units)]) as Hk.
    rewrite E in Hk. cbn [snd] in Hk.
    destruct (bind response _); [|exact Hk].
    destruct (text_of _ _ "distance"); [|exact Hk].
    destruct (text_of _ _ "duration"); exact Hk.
Qed.

(** X16 — The request handed to the session carries the API key of the object
    under [key], replacing any [key] among the parameters of the caller, and
    keeps every other parameter; it goes to the url of the service with a
    timeout of 3 seconds. *)
Theorem request_carries_key self service query :
  let req := build_request self service query in
  dict_get (params req) "key" = Some (_key self) /\
  (forall k, k <> "key" -> dict_get (params req) k = dict_get query k) /\
  url req = "https://maps.googleapis.com/maps/api/" ++ service ++ "/json" /\
  timeout req = 3%Z.
Proof.
  cbn. split; [apply dict_get_set_same|].
  split; [|split; reflexivity].
  intros k Hk. apply dict_get_set_other. congruence.
Qed.

Lemma request_carries_key_witness :
  dict_get (params (build_request fresh "geocode"
                      [("key", "other"); ("address", "main st")]))
    "address" = Some "main st".
Proof.
  apply (proj1 (proj2 (request_carries_key fresh "geocode"
                         [("key", "other"); ("address", "main st")]))
           "address").
  discriminate.
Defined.

(** X17 — A response whose body is not JSON makes [_make_request] raise the
    decoding error, whatever its HTTP status: with an error status the
    debug line decodes the body before [raise_for_status] is reached, so no
    [HTTPError] is raised. *)
Theorem make_request_body_not_json py_str self w service params r :
  session_get w (build_request self service params) = Responded r ->
  body r = None ->
  fst (_make_request py_str self w service params) = Raise JSONDecodeError.
Proof.
  intros Hget Hbody. rewrite (make_request_responded _ _ _ _ _ _ Hget).
  unfold response_json. rewrite Hbody.
  destruct (negb (ok r)); reflexivity.
Qed.

Lemma make_request_body_not_json_witness :
  fst (_make_request sample_str fresh (world_with (not_json 404)) "geocode"
         []) = Raise JSONDecodeError.
Proof.
  apply (make_request_body_not_json sample_str fresh
           (world_with (not_json 404)) "geocode" []
           {| status_code := 404; body := None |}); reflexivity.
Defined.

(** ** The expiration without fuzz *)

(** X18 — With a fuzz parameter of zero the expiration is [now] plus exactly
    the days of the current month, whatever the draw. *)
Theorem expiration_without_fuzz self w :
  _max_fuzz_days self = 0%Z ->
  exists month_days,
    monthrange_days (year (utcnow w)) (month (utcnow w)) = Return month_days /\
    expiration self w = Return (add_days (utcnow w) month_days).
Proof.
  intros Hzero.
  destruct (expiration_returns self w) as (md & Hmd & Hexp).
  exists md. split; [exact Hmd|]. rewrite Hexp, Hzero.
  assert (Hround : py_round (inject_Z 0 * random w)%Q = 0%Z).
  { unfold py_round.
    assert (Hq : (inject_Z 0 * random w == 0)%Q) by (unfold inject_Z; lra).
    assert (Hf : Qfloor (inject_Z 0 * random w)%Q = 0%Z).
    { rewrite (Qfloor_comp _ _ Hq). reflexivity. }
    rewrite Hf.
    assert (Hc : Qcompare (inject_Z 0 * random w - inject_Z 0)%Q (1 # 2) = Lt).
    { apply (proj1 (Qlt_alt _ _)). unfold inject_Z. lra. }
    now rewrite Hc. }
  rewrite Hround. now rewrite Z.add_0_r.
Qed.

Lemma expiration_without_fuzz_witness :
  exists month_days,
    monthrange_days (year noon) (month noon) = Return month_days /\
    expiration (__init__ "secret" 0 empty_cache)
      (world_with (answer 200 zero_results_body)) =
      Return (add_days noon month_days).
Proof.
  apply (expiration_without_fuzz (__init__ "secret" 0 empty_cache)
           (world_with (answer 200 zero_results_body))).
  reflexivity.
Defined.

(** ** The window of the rate limiter *)

Lemma deque_append_recent (d : list Q) (x : Q) :
  (List.length d <= _queries_per_second)%nat ->
  deque_append _queries_per_second d x =
    recent _queries_per_second (d ++ [x]).
Proof.
  intros Hlen. unfold deque_append, recent. rewrite length_app.
  cbn [List.length]. unfold _queries_per_second in *.
  destruct (50 <? List.length d + 1)%nat eqn:E.
  - apply Nat.ltb_lt in E.
    replace (List.length d + 1 - 50)%nat with 1%nat by lia.
    destruct d; reflexivity.
  - apply Nat.ltb_ge in E.
    replace (List.length d + 1 - 50)%nat with 0%nat by lia. reflexivity.
Qed.

Lemma recent_length {A} (n : nat) (l : list A) :
  (List.length (recent n l) <= n)%nat.
Proof. unfold recent. rewrite length_skipn. lia. Qed.

Lemma recent_recent_app {A} (n : nat) (l more : list A) :
  recent n (recent n l ++ more) = recent n (l ++ more).
Proof.
  unfold recent. rewrite !length_app, length_skipn.
  set (k := (List.length l - n)%nat).
  replace (List.length l + List.length more - n)%nat
    with ((List.length l - k + List.length more - n) + k)%nat
    by (subst k; lia).
  rewrite <- skipn_skipn, (skipn_app k l more).
  replace (k - List.length l)%nat with 0%nat by (subst k; lia).
  reflexivity.
Qed.

Lemma run_requests_window py_str calls : forall self,
  (List.length (_window self) <= _queries_per_second)%nat ->
  _window (snd (run_requests py_str self calls)) =
    recent _queries_per_second
      (_window self ++ fst (run_requests py_str self calls)).
Proof.
  induction calls as [|[w [service params]] calls IH]; intros self Hlen.
  - cbn [run_requests fst snd]. rewrite app_nil_r. unfold recent.
    now replace (List.length (_window self) - _queries_per_second)%nat
      with 0%nat by lia.
  - rewrite run_requests_cons.
    assert (Hsnd : snd (run_requests py_str self
                          ((w, (service, params)) :: calls)) =
                   snd (run_requests py_str
                          (snd (_make_request py_str self w service params))
                          calls)).
    { cbn [run_requests]. now destruct (run_requests _ _ calls). }
    rewrite Hsnd. clear Hsnd.
    set (self' := snd (_make_request py_str self w service params)).
    assert (Hwin : _window self' =
                   recent _queries_per_second
                     (_window self ++ [dispatch_time self w]))
      by (apply deque_append_recent; exact Hlen).
    rewrite IH by (rewrite Hwin; apply recent_length).
    rewrite Hwin, recent_recent_app, <- app_assoc. reflexivity.
Qed.

(** X19 — After any sequence of calls of [_make_request] on a fresh object,
    the window holds exactly the most recent readings, at most
    [_queries_per_second] of them, oldest first. *)
Theorem window_holds_recent_stamps py_str api_key fuzz cache calls :
  let run := run_requests py_str (__init__ api_key fuzz cache) calls in
  _window (snd run) = recent _queries_per_second (fst run) /\
  List.length (_window (snd run)) =
    Nat.min _queries_per_second (List.length calls).
Proof.
  cbv zeta.
  pose proof (run_requests_window py_str calls (__init__ api_key fuzz cache))
    as H.
  cbn [__init__ _window app List.length] in H.
  specialize (H (Nat.le_0_l _)). split; [exact H|].
  rewrite H. unfold recent. rewrite length_skipn.
  assert (Hlen : List.length
                   (fst (run_requests py_str (__init__ api_key fuzz cache)
                           calls)) = List.length calls).
  { clear H. generalize (__init__ api_key fuzz cache).
    induction calls as [|[w [service params]] calls IH]; intros self;
      [reflexivity|].
    rewrite run_requests_cons. cbn [List.length]. now rewrite IH. }
  rewrite Hlen. lia.
Qed.

(** X20 — While fewer than [_queries_per_second] requests have been sent, no
    call sleeps: in a run of at most that many calls on a fresh object every
    reading appended is the clock of the call plus its own delay. *)
Theorem first_requests_are_not_delayed py_str api_key fuzz cache calls :
  (List.length calls <= _queries_per_second)%nat ->
  fst (run_requests py_str (__init__ api_key fuzz cache) calls) =
    map (fun call => (time_check (fst call) + delay (fst call))%Q) calls.
Proof.
  assert (Hgen : forall self,
            (List.length (_window self) + List.length calls <=
             _queries_per_second)%nat ->
            fst (run_requests py_str self calls) =
              map (fun call => (time_check (fst call) + delay (fst call))%Q)
                calls).
  { induction calls as [|[w [service params]] calls IH]; intros self Hlen;
      [reflexivity|].
    rewrite run_requests_cons. cbn [map fst List.length] in *.
    f_equal.
    - unfold dispatch_time, rate_limit_sleep.
      replace (List.length (_window self) =? _queries_per_second)%nat
        with false; [reflexivity|].
      symmetry. apply Nat.eqb_neq. lia.
    - apply IH.
      change (_window (snd (_make_request py_str self w service params)))
        with (deque_append _queries_per_second (_window self)
                (dispatch_time self w)).
      rewrite deque_append_recent by lia.
      pose proof (recent_length _queries_per_second
                    (_window self ++ [dispatch_time self w])) as Hr.
      unfold recent in *. rewrite length_skipn, length_app in *.
      cbn [List.length] in *. lia. }
  intros Hlen. apply Hgen. cbn. lia.
Qed.

Lemma first_requests_are_not_delayed_witness :
  fst (run_requests sample_str fresh (firstn 50 burst)) =
    map (fun call => (time_check (fst call) + delay (fst call))%Q)
      (firstn 50 burst).
Proof.
  apply (first_requests_are_not_delayed sample_str "secret" 3%Z empty_cache
           (firstn 50 burst)).
  apply Nat.leb_le. vm_compute. reflexivity.
Defined.

(** X21 — Under a clock that does not run backwards, a sleep asked by the
    rate limiter is longer than nothing and at most one second; and no
    sleep is asked unless the window is full. *)
Theorem rate_limit_sleep_bounds self w d :
  clock_ok self w = true ->
  rate_limit_sleep self w = Some d ->
  (0 < d)%Q /\ (d <= 1)%Q /\
  List.length (_window self) = _queries_per_second.
Proof.
  unfold clock_ok, rate_limit_sleep. intros Hclock Hsleep.
  apply andb_true_iff in Hclock as [_ Hwin].
  destruct (List.length (_window self) =? _queries_per_second)%nat eqn:Hfull;
    [|discriminate].
  apply Nat.eqb_eq in Hfull.
  destruct (_window self) as [|oldest rest]; [discriminate Hfull|].
  cbn [forallb hd] in *. apply andb_true_iff in Hwin as [Hold _].
  apply Qle_bool_iff in Hold.
  destruct (Qltb _ 1) eqn:Hsoon; [|discriminate].
  apply Qltb_lt in Hsoon. injection Hsleep as <-.
  repeat split; try lra. exact Hfull.
Qed.

Lemma rate_limit_sleep_bounds_witness :
  exists d,
    rate_limit_sleep after_fifty fifty_first = Some d /\
    (0 < d)%Q /\ (d <= 1)%Q /\
    List.length (_window after_fifty) = _queries_per_second.
Proof.
  eexists. split; [vm_compute; reflexivity|].
  apply (rate_limit_sleep_bounds after_fifty fifty_first);
    vm_compute; reflexivity.
Defined.
